(** * Build profile composition of [electron.vite.config.ts]

    A shallow embedding of the configuration module: the three build
    profiles ([main], [preload], [renderer]) as a function of the process
    environment, the package metadata, the module directory and the path
    resolver of the host platform. *)

From Stdlib Require Import Ascii String.
From stdpp Require Import base option strings list gmap.

Local Open Scope string_scope.
Local Open Scope list_scope.

(** ** JavaScript values *)

(** A plain object, as the list of its own enumerable properties in the
    order the engine enumerates them. *)
Definition JSObject (V : Type) : Type := list (string * V).

Section js_object.
Context {V : Type}.

(** [Object.keys(o)]. *)
Definition Object_keys (o : JSObject V) : list string := o.*1.

(** [o[k] = v] for a plain key, one that is neither an array index (the
    engine enumerates those first) nor [__proto__]: an existing property
    keeps its place and takes the new value, a new property goes to the
    end. *)
Fixpoint obj_set (k : string) (v : V) (o : JSObject V) : JSObject V :=
  match o with
  | [] => [(k, v)]
  | (k', v') :: o' =>
      if decide (k = k') then (k, v) :: o' else (k', v') :: obj_set k v o'
  end.

(** An object literal [{ k1: v1, ..., kn: vn }] with plain keys, as are all
    the keys the module writes ([@main], [index], ...): the properties are
    defined left to right. *)
Definition object_literal (props : list (string * V)) : JSObject V :=
  foldl (λ o p, obj_set p.1 p.2 o) [] props.
End js_object.

(** What evaluating an expression gives: a value, or a thrown error. *)
Inductive JSError : Type :=
  | TypeError (msg : string).

Inductive Completion (A : Type) : Type :=
  | Normal (a : A)
  | Throw (e : JSError).
Arguments Normal {A} a.
Arguments Throw {A} e.

#[global] Instance Completion_ret : MRet Completion := λ A a, Normal a.

#[global] Instance Completion_bind : MBind Completion := λ A B k m,
  match m with
  | Normal a => k a
  | Throw e => Throw e
  end.

(** [Object.keys] of a property that may be missing: neither [undefined]
    nor [null] can be converted to an object. *)
Definition Object_keys_of {V : Type} (o : option (JSObject V))
  : Completion (list string) :=
  match o with
  | Some o => Normal (Object_keys o)
  | None => Throw (TypeError "Cannot convert undefined or null to object")
  end.

(** [String.prototype.toUpperCase], on the ASCII letters. *)
Definition upper_ascii (c : ascii) : ascii :=
  let n := nat_of_ascii c in
  if (97 <=? n)%nat && (n <=? 122)%nat then ascii_of_nat (n - 32) else c.

Fixpoint toUpperCase (s : string) : string :=
  match s with
  | EmptyString => EmptyString
  | String c s' => String (upper_ascii c) (toUpperCase s')
  end.

(** Truthiness of [process.env[k]]: [undefined] and the empty string are
    falsy, every other string is truthy. *)
Definition truthy (v : option string) : bool :=
  match v with
  | Some s => negb (String.eqb s "")
  | None => false
  end.

(** [a === 'lit'] for a value that is a string or [undefined]. *)
Definition strict_eq (v : option string) (lit : string) : bool :=
  match v with
  | Some s => String.eqb s lit
  | None => false
  end.

(** ** Inputs *)

(** [process.env]. *)
Abbreviation Env := (gmap string string).

(** [package.json], the part that is read: the object [pkg.dependencies],
    or [None] when the property is [undefined] or [null]. *)
Record PackageJson : Type := {
  dependencies : option (JSObject string)
}.

(** ** Plugins *)

Inductive Plugin : Type :=
  | visualizer (open : bool)
  | react (tsDecorators : bool)
  | CodeInspectorPlugin (bundler : string)
  | tailwindcss.

(** An entry of a [plugins] array: a plugin, or a promise of one (the
    dynamic import of the CSS plugin). *)
Inductive PluginOption : Type :=
  | plugin (p : Plugin)
  | promise (p : Plugin).

(** The argument type of [visualizerPlugin]: ['renderer' | 'main']. *)
Inductive VisualizerType : Type :=
  | type_renderer
  | type_main.

Definition type_string (type : VisualizerType) : string :=
  match type with
  | type_renderer => "renderer"
  | type_main => "main"
  end.

(** The variable read by [visualizerPlugin(type)]. *)
Definition visualizer_variable (type : VisualizerType) : string :=
  "VISUALIZER_" +:+ toUpperCase (type_string type).

(** The flag [visualizerEnabledFor(target)] of the specification: the
    condition of [visualizerPlugin]. *)
Definition visualizerEnabledFor (env : Env) (type : VisualizerType) : bool :=
  truthy (env !! visualizer_variable type).

Definition visualizerPlugin (env : Env) (type : VisualizerType)
  : list PluginOption :=
  if visualizerEnabledFor env type then [plugin (visualizer true)] else [].

Definition isDev (env : Env) : bool :=
  strict_eq (env !! "NODE_ENV") "development".

Definition isProd (env : Env) : bool :=
  strict_eq (env !! "NODE_ENV") "production".

(** ** The shape of a profile *)

Module Rollup.
Record Warning : Type := {
  code : option string;
  message : string
}.

Record OutputOptions : Type := {
  manualChunks : option (JSObject (list string));
  inlineDynamicImports : bool
}.

(** [onwarn] is kept as the list of warnings it passes on to [warn]. *)
Record Options : Type := {
  external : option (list string);
  input : option (JSObject string);
  output : option OutputOptions;
  onwarn : option (Warning → list Warning)
}.
End Rollup.

Module Vite.
Record ResolveOptions : Type := {
  alias : JSObject string
}.

Record BuildOptions : Type := {
  target : option string;
  rollupOptions : option Rollup.Options;
  sourcemap : option bool
}.

Record ESBuildOptions : Type := {
  legalComments : option string
}.

Record DepEsbuildOptions : Type := {
  esbuild_target : string
}.

Record DepOptimizationOptions : Type := {
  noDiscovery : option bool;
  exclude : option (list string);
  esbuildOptions : option DepEsbuildOptions
}.

Record WorkerOptions : Type := {
  format : string
}.

(** One profile. A key that the object literal does not write is [None]. *)
Record UserConfig : Type := {
  plugins : list PluginOption;
  resolve : ResolveOptions;
  build : BuildOptions;
  esbuild : option ESBuildOptions;
  optimizeDeps : option DepOptimizationOptions;
  worker : option WorkerOptions
}.
End Vite.

(** The argument and result of [defineConfig]. *)
Record ElectronViteConfig : Type := {
  main : Vite.UserConfig;
  preload : Vite.UserConfig;
  renderer : Vite.UserConfig
}.

Definition defineConfig (config : ElectronViteConfig) : ElectronViteConfig :=
  config.

(** ** The configuration module *)

Section config.

(** [resolve] of the host's [path] module (it closes over the working
    directory), [process.env], [package.json] and [__dirname]. *)
Variable resolve : list string → string.
Variable env : Env.
Variable pkg : PackageJson.
Variable __dirname : string.

(** The properties written in the three [alias] literals. *)
Definition main_alias : list (string * string) :=
  [ ("@main", resolve ["src/main"]);
    ("@types", resolve ["src/renderer/src/types"]);
    ("@shared", resolve ["packages/shared"]);
    ("@logger", resolve ["src/main/services/LoggerService"]);
    ("@mcp-trace/trace-core", resolve ["packages/mcp-trace/trace-core"]);
    ("@mcp-trace/trace-node", resolve ["packages/mcp-trace/trace-node"]) ].

Definition preload_alias : list (string * string) :=
  [ ("@shared", resolve ["packages/shared"]);
    ("@mcp-trace/trace-core", resolve ["packages/mcp-trace/trace-core"]) ].

Definition renderer_alias : list (string * string) :=
  [ ("@renderer", resolve ["src/renderer/src"]);
    ("@shared", resolve ["packages/shared"]);
    ("@types", resolve ["src/renderer/src/types"]);
    ("@logger", resolve ["src/renderer/src/services/LoggerService"]);
    ("@cherrystudio/ai-core", resolve ["packages/aiCore/src"]);
    ("@cherrystudio/extension-table-plus",
      resolve ["packages/extension-table-plus/src"]) ].

(** The properties written in the [input] literal of the renderer. *)
Definition renderer_input : list (string * string) :=
  [ ("index", resolve [__dirname; "src/renderer/index.html"]);
    ("miniWindow", resolve [__dirname; "src/renderer/miniWindow.html"]);
    ("selectionToolbar",
      resolve [__dirname; "src/renderer/selectionToolbar.html"]);
    ("selectionAction",
      resolve [__dirname; "src/renderer/selectionAction.html"]);
    ("traceWindow", resolve [__dirname; "src/renderer/traceWindow.html"]) ].

(** [onwarn(warning, warn)]: the warnings handed to [warn]. *)
Definition onwarn (warning : Rollup.Warning) : list Rollup.Warning :=
  if strict_eq (Rollup.code warning) "COMMONJS_VARIABLE_IN_ESM"
  then []
  else [warning].

(** The names written before the spread in [external]. *)
Definition static_external : list string :=
  ["bufferutil"; "utf-8-validate"; "electron"].

(** The object handed to [defineConfig], with the three [alias] literals
    taken as arguments. *)
Definition compose (main_alias preload_alias renderer_alias
                    : list (string * string))
  : Completion ElectronViteConfig :=
  keys ← Object_keys_of (dependencies pkg);
  mret (defineConfig {|
    main := {|
      Vite.plugins := visualizerPlugin env type_main;
      Vite.resolve := {| Vite.alias := object_literal main_alias |};
      Vite.build := {|
        Vite.target := None;
        Vite.rollupOptions := Some {|
          Rollup.external := Some (static_external ++ keys);
          Rollup.input := None;
          Rollup.output := Some {|
            Rollup.manualChunks := None;
            Rollup.inlineDynamicImports := true
          |};
          Rollup.onwarn := Some onwarn
        |};
        Vite.sourcemap := Some (isDev env)
      |};
      Vite.esbuild :=
        Some (if isProd env
              then {| Vite.legalComments := Some "none" |}
              else {| Vite.legalComments := None |});
      Vite.optimizeDeps := Some {|
        Vite.noDiscovery := Some (isDev env);
        Vite.exclude := None;
        Vite.esbuildOptions := None
      |};
      Vite.worker := None
    |};
    preload := {|
      Vite.plugins := [plugin (react true)];
      Vite.resolve := {| Vite.alias := object_literal preload_alias |};
      Vite.build := {|
        Vite.target := None;
        Vite.rollupOptions := None;
        Vite.sourcemap := Some (isDev env)
      |};
      Vite.esbuild := None;
      Vite.optimizeDeps := None;
      Vite.worker := None
    |};
    renderer := {|
      Vite.plugins :=
        [promise tailwindcss; plugin (react true)]
        ++ (if isDev env then [plugin (CodeInspectorPlugin "vite")] else [])
        ++ visualizerPlugin env type_renderer;
      Vite.resolve := {| Vite.alias := object_literal renderer_alias |};
      Vite.build := {|
        Vite.target := Some "esnext";
        Vite.rollupOptions := Some {|
          Rollup.external := None;
          Rollup.input := Some (object_literal renderer_input);
          Rollup.output := None;
          Rollup.onwarn := Some onwarn
        |};
        Vite.sourcemap := None
      |};
      Vite.esbuild :=
        Some (if isProd env
              then {| Vite.legalComments := Some "none" |}
              else {| Vite.legalComments := None |});
      Vite.optimizeDeps := Some {|
        Vite.noDiscovery := None;
        Vite.exclude := Some ["pyodide"];
        Vite.esbuildOptions := Some {| Vite.esbuild_target := "esnext" |}
      |};
      Vite.worker := Some {| Vite.format := "es" |}
    |}
  |}).

(** The default export. *)
Definition default_export : Completion ElectronViteConfig :=
  compose main_alias preload_alias renderer_alias.

End config.

(** ** The host's path resolver, on POSIX

    [path.resolve] as the platform implements it, for evaluating the
    configuration at concrete inputs: the arguments are joined from the
    right until one is absolute (the working directory comes last), then
    the result is normalised. *)

Module Path.

Definition is_absolute (p : string) : bool :=
  match p with
  | String c _ => Ascii.eqb c "/"
  | EmptyString => false
  end.

(** The pieces of [s] between the separators. *)
Fixpoint segments (s : string) : list string :=
  match s with
  | EmptyString => [EmptyString]
  | String c s' =>
      if Ascii.eqb c "/" then EmptyString :: segments s'
      else match segments s' with
           | seg :: rest => String c seg :: rest
           | [] => [String c EmptyString]
           end
  end.

(** One segment of [normalizeString]; [stack] holds the kept segments,
    last one first. *)
Definition normalize_step (allowAboveRoot : bool) (stack : list string)
    (seg : string) : list string :=
  if decide (seg = "" ∨ seg = ".") then stack
  else if decide (seg = "..") then
    match stack with
    | top :: rest =>
        if decide (top = "..")
        then (if allowAboveRoot then ".." :: stack else stack)
        else rest
    | [] => if allowAboveRoot then [".."] else []
    end
  else seg :: stack.

Definition normalizeString (path : string) (allowAboveRoot : bool) : string :=
  String.concat "/"
    (reverse (foldl (normalize_step allowAboveRoot) [] (segments path))).

(** The loop of [resolve], over the arguments from the last to the first. *)
Fixpoint join_from_right (paths : list string) (resolvedPath : string)
  : string * bool :=
  match paths with
  | [] => (resolvedPath, false)
  | path :: paths' =>
      if decide (path = "") then join_from_right paths' resolvedPath
      else if is_absolute path then (path +:+ "/" +:+ resolvedPath, true)
      else join_from_right paths' (path +:+ "/" +:+ resolvedPath)
  end.

Definition resolve (cwd : string) (paths : list string) : string :=
  let '(resolvedPath, resolvedAbsolute) :=
    join_from_right (reverse paths ++ [cwd]) "" in
  let normalized := normalizeString resolvedPath (negb resolvedAbsolute) in
  if resolvedAbsolute then "/" +:+ normalized
  else if decide (normalized = "") then "." else normalized.

End Path.

(** ** What the specification reads off a profile *)

Inductive Target : Type :=
  | Host
  | Bridge
  | UI.

Definition profile (t : Target) (c : ElectronViteConfig) : Vite.UserConfig :=
  match t with
  | Host => main c
  | Bridge => preload c
  | UI => renderer c
  end.

Definition alias_map (p : Vite.UserConfig) : JSObject string :=
  Vite.alias (Vite.resolve p).

Definition sourcemap_option (p : Vite.UserConfig) : option bool :=
  Vite.sourcemap (Vite.build p).

(** Source maps are emitted when [build.sourcemap] is [true]. *)
Definition sourcemap_enabled (p : Vite.UserConfig) : Prop :=
  sourcemap_option p = Some true.

Definition legalComments_option (p : Vite.UserConfig) : option string :=
  Vite.esbuild p ≫= Vite.legalComments.

(** Legal comments are stripped when [esbuild.legalComments] is ['none']. *)
Definition legal_comments_stripped (p : Vite.UserConfig) : Prop :=
  legalComments_option p = Some "none".

Definition legal_comments_kept (p : Vite.UserConfig) : Prop :=
  legalComments_option p = None.

Definition noDiscovery_option (p : Vite.UserConfig) : option bool :=
  Vite.optimizeDeps p ≫= Vite.noDiscovery.

Definition external_list (p : Vite.UserConfig) : option (list string) :=
  Vite.rollupOptions (Vite.build p) ≫= Rollup.external.

Definition entry_set (p : Vite.UserConfig) : option (JSObject string) :=
  Vite.rollupOptions (Vite.build p) ≫= Rollup.input.

Definition plugin_of (o : PluginOption) : Plugin :=
  match o with
  | plugin p => p
  | promise p => p
  end.

Definition is_source_inspection (o : PluginOption) : bool :=
  match plugin_of o with
  | CodeInspectorPlugin _ => true
  | _ => false
  end.

Definition is_visualizer (o : PluginOption) : bool :=
  match plugin_of o with
  | visualizer _ => true
  | _ => false
  end.

(** The alias literal written for a target. *)
Definition declared_alias (resolve : list string → string) (t : Target)
  : list (string * string) :=
  match t with
  | Host => main_alias resolve
  | Bridge => preload_alias resolve
  | UI => renderer_alias resolve
  end.

(** The profile whose plugins [visualizerPlugin(type)] is spread into. *)
Definition visualizer_target (type : VisualizerType) : Target :=
  match type with
  | type_main => Host
  | type_renderer => UI
  end.

(** The absolute path with the given names, on POSIX. *)
Definition posix_path (names : list string) : string :=
  "/" +:+ String.concat "/" names.

(** The [dependencies] property as the file has it: no such property,
    [null], or an object of names and version ranges. *)
Inductive DependenciesProperty : Type :=
  | dependencies_absent
  | dependencies_null
  | dependencies_object (o : JSObject string).

(** The imported [pkg] for such a file. *)
Definition read_package (d : DependenciesProperty) : PackageJson :=
  {| dependencies :=
       match d with
       | dependencies_object o => Some o
       | dependencies_absent | dependencies_null => None
       end |}.

(** ** Plain path names *)

Fixpoint slash_free (s : string) : bool :=
  match s with
  | EmptyString => true
  | String c s' => negb (Ascii.eqb c "/") && slash_free s'
  end.

(** A file or directory name: no separator, not empty, not a dot name. *)
Definition plain_segment (s : string) : bool :=
  slash_free s && negb (String.eqb s "") && negb (String.eqb s ".")
  && negb (String.eqb s "..").

(** ** Concrete inputs *)

Definition env_development : Env := {[ "NODE_ENV" := "development" ]}.
Definition env_production : Env :=
  <[ "VISUALIZER_RENDERER" := "1" ]> {[ "NODE_ENV" := "production" ]}.
Definition env_development_visualizer : Env :=
  <[ "VISUALIZER_RENDERER" := "true" ]> {[ "NODE_ENV" := "development" ]}.
Definition env_test : Env := {[ "NODE_ENV" := "test" ]}.

Definition pkg_axios_zod : PackageJson :=
  {| dependencies := Some [("axios", "^1.7.3"); ("zod", "^3.25.76")] |}.
Definition pkg_bufferutil : PackageJson :=
  {| dependencies := Some [("ws", "^8.18.0"); ("bufferutil", "^4.0.8")] |}.
Definition pkg_no_dependencies : PackageJson := {| dependencies := None |}.
Definition pkg_empty_dependencies : PackageJson :=
  {| dependencies := Some [] |}.

(** ** The definitions at concrete inputs *)

Example visualizer_variable_main : visualizer_variable type_main = "VISUALIZER_MAIN".
Proof. reflexivity. Qed.

Example visualizer_variable_renderer :
  visualizer_variable type_renderer = "VISUALIZER_RENDERER".
Proof. reflexivity. Qed.

Example isDev_development : isDev {[ "NODE_ENV" := "development" ]} = true.
Proof. vm_compute. reflexivity. Qed.

Example resolve_relative :
  Path.resolve "/home/app" ["src/main"] = "/home/app/src/main".
Proof. vm_compute. reflexivity. Qed.

Example resolve_under_dirname :
  Path.resolve "/tmp" ["/home/app"; "src/renderer/index.html"]
  = "/home/app/src/renderer/index.html".
Proof. vm_compute. reflexivity. Qed.

Example resolve_dots :
  Path.resolve "/home/app" ["a/./b/../c//"; "../d"] = "/home/app/a/d".
Proof. vm_compute. reflexivity. Qed.

Example export_without_dependencies :
  default_export (Path.resolve "/app") env_development pkg_no_dependencies "/app"
  = Throw (TypeError "Cannot convert undefined or null to object").
Proof. reflexivity. Qed.

Example export_development_plugins :
  (λ c, (Vite.plugins (main c), Vite.plugins (renderer c),
         alias_map (preload c), external_list (main c))) <$>
    (match default_export (Path.resolve "/app") env_development_visualizer
             pkg_axios_zod "/app" with Normal c => Some c | _ => None end)
  = Some ([],
          [promise tailwindcss; plugin (react true);
           plugin (CodeInspectorPlugin "vite"); plugin (visualizer true)],
          [("@shared", "/app/packages/shared");
           ("@mcp-trace/trace-core", "/app/packages/mcp-trace/trace-core")],
          Some ["bufferutil"; "utf-8-validate"; "electron"; "axios"; "zod"]).
Proof. vm_compute. reflexivity. Qed.

(** ** The mode flags *)

Lemma strict_eq_true (v : option string) (lit : string) :
  strict_eq v lit = true ↔ v = Some lit.
Proof.
  destruct v as [s|]; simpl.
  - rewrite String.eqb_eq. split; congruence.
  - split; discriminate.
Qed.

Lemma strict_eq_false (v : option string) (lit : string) :
  strict_eq v lit = false ↔ v ≠ Some lit.
Proof.
  rewrite <- strict_eq_true. destruct (strict_eq v lit); split; congruence.
Qed.

Lemma isDev_true (env : Env) :
  isDev env = true ↔ env !! "NODE_ENV" = Some "development".
Proof. apply strict_eq_true. Qed.

Lemma isProd_true (env : Env) :
  isProd env = true ↔ env !! "NODE_ENV" = Some "production".
Proof. apply strict_eq_true. Qed.

Lemma isProd_not_isDev (env : Env) : isProd env = true → isDev env = false.
Proof.
  rewrite isProd_true. intros Hprod. apply strict_eq_false.
  rewrite Hprod. discriminate.
Qed.

Lemma truthy_None_false (v : option string) : v = None → truthy v = false.
Proof. intros ->. reflexivity. Qed.

(** ** Running the module *)

(** With a [dependencies] object the module evaluates to the literal. *)
Ltac run_export Hdeps :=
  unfold default_export, compose;
  rewrite Hdeps;
  cbn [mbind mret Completion_bind Completion_ret Object_keys_of defineConfig];
  eexists; split; [reflexivity |];
  cbn [main preload renderer profile alias_map sourcemap_option
       legalComments_option noDiscovery_option external_list entry_set
       sourcemap_enabled legal_comments_stripped legal_comments_kept
       Vite.plugins Vite.resolve Vite.build Vite.esbuild Vite.optimizeDeps
       Vite.worker Vite.alias Vite.sourcemap Vite.rollupOptions Vite.target
       Vite.legalComments Vite.noDiscovery Rollup.external Rollup.input
       mbind option_bind].

(** The module throws exactly when [pkg.dependencies] is [undefined] or
    [null]; the environment, the directory and the resolver play no part
    in it. *)
Lemma default_export_throws_iff
    (resolve : list string → string) (env : Env) (pkg : PackageJson)
    (dirname : string) :
  (∃ e, default_export resolve env pkg dirname = Throw e)
  ↔ dependencies pkg = None.
Proof.
  unfold default_export, compose.
  destruct (dependencies pkg) as [deps |]; simpl; split.
  - intros [e He]. discriminate.
  - discriminate.
  - reflexivity.
  - intros _. eexists. reflexivity.
Qed.

(** C9. At most one of [isDev] and [isProd] holds: both compare the one
    value of [NODE_ENV], with different literals. *)
Theorem isDev_isProd_exclusive (env : Env) : isDev env && isProd env = false.
Proof.
  destruct (isProd env) eqn:Hprod.
  - rewrite (isProd_not_isDev env Hprod). reflexivity.
  - apply andb_false_r.
Qed.

(** C3. In production mode both the main and the renderer profile strip
    legal comments, and no plugin of the renderer is the source inspector,
    whatever else the environment holds. *)
Theorem production_strips_and_hides_inspector
    (resolve : list string → string) (env : Env) (pkg : PackageJson)
    (dirname : string) (deps : JSObject string) :
  isProd env = true →
  dependencies pkg = Some deps →
  ∃ c, default_export resolve env pkg dirname = Normal c
       ∧ legal_comments_stripped (profile Host c)
       ∧ legal_comments_stripped (profile UI c)
       ∧ ∀ o, o ∈ Vite.plugins (profile UI c) → is_source_inspection o = false.
Proof.
  intros Hprod Hdeps. run_export Hdeps.
  rewrite Hprod, (isProd_not_isDev env Hprod). cbn.
  split; [reflexivity |]. split; [reflexivity |].
  intros o. unfold visualizerPlugin.
  destruct (visualizerEnabledFor env type_renderer);
    rewrite !elem_of_cons, elem_of_nil; intros Ho;
    repeat destruct Ho as [-> | Ho]; try reflexivity; destruct Ho.
Qed.

Lemma production_strips_and_hides_inspector_witness :
  isProd env_production = true
  ∧ dependencies pkg_axios_zod = Some [("axios", "^1.7.3"); ("zod", "^3.25.76")]
  ∧ ∃ c, default_export (Path.resolve "/app") env_production pkg_axios_zod "/app"
         = Normal c
       ∧ legal_comments_stripped (profile Host c)
       ∧ legal_comments_stripped (profile UI c)
       ∧ ∀ o, o ∈ Vite.plugins (profile UI c) → is_source_inspection o = false.
Proof.
  split; [vm_compute; reflexivity |]. split; [reflexivity |].
  apply (production_strips_and_hides_inspector (Path.resolve "/app")
           env_production pkg_axios_zod "/app"
           [("axios", "^1.7.3"); ("zod", "^3.25.76")]);
    [vm_compute; reflexivity | reflexivity].
Defined.

(** C4. In development mode with the renderer's visualizer variable set,
    the renderer's plugins are the CSS plugin, the React plugin, the source
    inspector and the visualizer, in this order. *)
Theorem renderer_plugins_development_visualizer
    (resolve : list string → string) (env : Env) (pkg : PackageJson)
    (dirname : string) (deps : JSObject string) :
  isDev env = true →
  visualizerEnabledFor env type_renderer = true →
  dependencies pkg = Some deps →
  ∃ c, default_export resolve env pkg dirname = Normal c
       ∧ Vite.plugins (profile UI c)
         = [promise tailwindcss; plugin (react true);
            plugin (CodeInspectorPlugin "vite"); plugin (visualizer true)].
Proof.
  intros Hdev Hvis Hdeps. run_export Hdeps.
  unfold visualizerPlugin. rewrite Hdev, Hvis. reflexivity.
Qed.

Lemma renderer_plugins_development_visualizer_witness :
  isDev env_development_visualizer = true
  ∧ visualizerEnabledFor env_development_visualizer type_renderer = true
  ∧ dependencies pkg_axios_zod = Some [("axios", "^1.7.3"); ("zod", "^3.25.76")]
  ∧ ∃ c, default_export (Path.resolve "/app") env_development_visualizer
           pkg_axios_zod "/app" = Normal c
       ∧ Vite.plugins (profile UI c)
         = [promise tailwindcss; plugin (react true);
            plugin (CodeInspectorPlugin "vite"); plugin (visualizer true)].
Proof.
  split; [vm_compute; reflexivity |]. split; [vm_compute; reflexivity |].
  split; [reflexivity |].
  apply (renderer_plugins_development_visualizer (Path.resolve "/app")
           env_development_visualizer pkg_axios_zod "/app"
           [("axios", "^1.7.3"); ("zod", "^3.25.76")]);
    [vm_compute; reflexivity | vm_compute; reflexivity | reflexivity].
Defined.

(** C1, as the code has it. In development mode (and not production mode)
    the main and the preload profile emit source maps, the renderer profile
    writes no [sourcemap] key at all, and neither the main nor the renderer
    profile strips legal comments. *)
Theorem development_sourcemaps_and_comments
    (resolve : list string → string) (env : Env) (pkg : PackageJson)
    (dirname : string) (deps : JSObject string) :
  isDev env = true →
  isProd env = false →
  dependencies pkg = Some deps →
  ∃ c, default_export resolve env pkg dirname = Normal c
       ∧ sourcemap_enabled (profile Host c)
       ∧ sourcemap_enabled (profile Bridge c)
       ∧ sourcemap_option (profile UI c) = None
       ∧ legal_comments_kept (profile Host c)
       ∧ legal_comments_kept (profile UI c).
Proof.
  intros Hdev Hprod Hdeps. run_export Hdeps.
  rewrite Hdev, Hprod. repeat split.
Qed.

Lemma development_sourcemaps_and_comments_witness :
  isDev env_development = true
  ∧ isProd env_development = false
  ∧ dependencies pkg_axios_zod = Some [("axios", "^1.7.3"); ("zod", "^3.25.76")]
  ∧ ∃ c, default_export (Path.resolve "/app") env_development pkg_axios_zod
           "/app" = Normal c
       ∧ sourcemap_enabled (profile Host c)
       ∧ sourcemap_enabled (profile Bridge c)
       ∧ sourcemap_option (profile UI c) = None
       ∧ legal_comments_kept (profile Host c)
       ∧ legal_comments_kept (profile UI c).
Proof.
  split; [vm_compute; reflexivity |]. split; [vm_compute; reflexivity |].
  split; [reflexivity |].
  apply (development_sourcemaps_and_comments (Path.resolve "/app")
           env_development pkg_axios_zod "/app"
           [("axios", "^1.7.3"); ("zod", "^3.25.76")]);
    [vm_compute; reflexivity | vm_compute; reflexivity | reflexivity].
Defined.

(** C1 as stated fails: with [NODE_ENV=development] the module evaluates,
    [isDev] holds and [isProd] does not, and the renderer profile does not
    have source maps enabled. *)
Lemma development_renderer_sourcemap_not_enabled :
  isDev env_development = true
  ∧ isProd env_development = false
  ∧ ∃ c, default_export (Path.resolve "/app") env_development pkg_axios_zod
           "/app" = Normal c
       ∧ ¬ sourcemap_enabled (profile UI c).
Proof.
  split; [vm_compute; reflexivity |]. split; [vm_compute; reflexivity |].
  eexists. split; [reflexivity |]. discriminate.
Qed.

(** C6. The main profile's plugins are the visualizer alone when the
    variable [VISUALIZER_MAIN] is truthy and empty otherwise; without the
    variable the flag is off, and the module still evaluates. *)
Theorem main_plugins_visualizer
    (resolve : list string → string) (env : Env) (pkg : PackageJson)
    (dirname : string) (deps : JSObject string) :
  dependencies pkg = Some deps →
  ∃ c, default_export resolve env pkg dirname = Normal c
       ∧ ((∃ o, o ∈ Vite.plugins (profile Host c) ∧ is_visualizer o = true)
          ↔ visualizerEnabledFor env type_main = true)
       ∧ (visualizerEnabledFor env type_main = true →
          Vite.plugins (profile Host c) = [plugin (visualizer true)])
       ∧ (visualizerEnabledFor env type_main = false →
          Vite.plugins (profile Host c) = [])
       ∧ (env !! "VISUALIZER_MAIN" = None →
          visualizerEnabledFor env type_main = false).
Proof.
  intros Hdeps. run_export Hdeps. unfold visualizerPlugin.
  split; [| split; [| split]].
  - destruct (visualizerEnabledFor env type_main); split.
    + reflexivity.
    + intros _. exists (plugin (visualizer true)).
      split; [apply list_elem_of_singleton |]; reflexivity.
    + intros (o & Ho & _). apply elem_of_nil in Ho. destruct Ho.
    + discriminate.
  - intros ->. reflexivity.
  - intros ->. reflexivity.
  - intros Habsent. unfold visualizerEnabledFor.
    apply truthy_None_false. exact Habsent.
Qed.

Lemma main_plugins_visualizer_witness :
  dependencies pkg_axios_zod = Some [("axios", "^1.7.3"); ("zod", "^3.25.76")]
  ∧ ∃ c, default_export (Path.resolve "/app") env_development pkg_axios_zod
           "/app" = Normal c
       ∧ ((∃ o, o ∈ Vite.plugins (profile Host c) ∧ is_visualizer o = true)
          ↔ visualizerEnabledFor env_development type_main = true)
       ∧ (visualizerEnabledFor env_development type_main = true →
          Vite.plugins (profile Host c) = [plugin (visualizer true)])
       ∧ (visualizerEnabledFor env_development type_main = false →
          Vite.plugins (profile Host c) = [])
       ∧ (env_development !! "VISUALIZER_MAIN" = None →
          visualizerEnabledFor env_development type_main = false).
Proof.
  split; [reflexivity |].
  apply (main_plugins_visualizer (Path.resolve "/app") env_development
           pkg_axios_zod "/app" [("axios", "^1.7.3"); ("zod", "^3.25.76")]).
  reflexivity.
Defined.

(** C10. When [NODE_ENV] is unset or is neither ['development'] nor
    ['production'], the module evaluates and every toggle is off: no source
    maps for main and preload, legal comments kept for main and renderer,
    no source inspector among the renderer's plugins, and dependency
    discovery not disabled. *)
Theorem neutral_mode_all_toggles_off
    (resolve : list string → string) (env : Env) (pkg : PackageJson)
    (dirname : string) (deps : JSObject string) :
  env !! "NODE_ENV" ≠ Some "development" →
  env !! "NODE_ENV" ≠ Some "production" →
  dependencies pkg = Some deps →
  ∃ c, default_export resolve env pkg dirname = Normal c
       ∧ sourcemap_option (profile Host c) = Some false
       ∧ sourcemap_option (profile Bridge c) = Some false
       ∧ legal_comments_kept (profile Host c)
       ∧ legal_comments_kept (profile UI c)
       ∧ (∀ o, o ∈ Vite.plugins (profile UI c) → is_source_inspection o = false)
       ∧ noDiscovery_option (profile Host c) = Some false
       ∧ noDiscovery_option (profile UI c) ≠ Some true.
Proof.
  intros Hdev Hprod Hdeps.
  apply strict_eq_false in Hdev, Hprod. fold (isDev env) in Hdev.
  fold (isProd env) in Hprod.
  run_export Hdeps. rewrite Hdev, Hprod. cbn.
  repeat (split; [reflexivity |]). split; [| split; [reflexivity | discriminate]].
  intros o. unfold visualizerPlugin.
  destruct (visualizerEnabledFor env type_renderer);
    rewrite !elem_of_cons, elem_of_nil; intros Ho;
    repeat destruct Ho as [-> | Ho]; try reflexivity; destruct Ho.
Qed.

Lemma neutral_mode_all_toggles_off_witness :
  (∅ : Env) !! "NODE_ENV" ≠ Some "development"
  ∧ (∅ : Env) !! "NODE_ENV" ≠ Some "production"
  ∧ dependencies pkg_axios_zod = Some [("axios", "^1.7.3"); ("zod", "^3.25.76")]
  ∧ ∃ c, default_export (Path.resolve "/app") ∅ pkg_axios_zod "/app" = Normal c
       ∧ sourcemap_option (profile Host c) = Some false
       ∧ sourcemap_option (profile Bridge c) = Some false
       ∧ legal_comments_kept (profile Host c)
       ∧ legal_comments_kept (profile UI c)
       ∧ (∀ o, o ∈ Vite.plugins (profile UI c) → is_source_inspection o = false)
       ∧ noDiscovery_option (profile Host c) = Some false
       ∧ noDiscovery_option (profile UI c) ≠ Some true.
Proof.
  split; [vm_compute; discriminate |]. split; [vm_compute; discriminate |].
  split; [reflexivity |].
  apply (neutral_mode_all_toggles_off (Path.resolve "/app") ∅ pkg_axios_zod
           "/app" [("axios", "^1.7.3"); ("zod", "^3.25.76")]);
    [vm_compute; discriminate | vm_compute; discriminate | reflexivity].
Defined.

Example neutral_mode_other_value :
  isDev env_test = false ∧ isProd env_test = false.
Proof. split; vm_compute; reflexivity. Qed.

(** ** Object literals *)

Section object_literal_facts.
Context {V : Type}.
Implicit Types (o : JSObject V) (props : list (string * V)).

Lemma obj_set_fresh k v o :
  k ∉ Object_keys o → obj_set k v o = o ++ [(k, v)].
Proof.
  induction o as [| [k' v'] o IH]; simpl; [reflexivity |].
  rewrite not_elem_of_cons. intros [Hne Hnotin].
  destruct (decide (k = k')) as [-> | _]; [contradiction |].
  rewrite IH by exact Hnotin. reflexivity.
Qed.

Lemma foldl_obj_set_distinct props o :
  NoDup (Object_keys (o ++ props)) →
  foldl (λ o p, obj_set p.1 p.2 o) o props = o ++ props.
Proof.
  revert o. induction props as [| [k v] props IH]; intros o Hnd; simpl.
  - rewrite app_nil_r. reflexivity.
  - assert (Hfresh : k ∉ Object_keys o).
    { unfold Object_keys in *. rewrite fmap_app in Hnd.
      apply NoDup_app in Hnd as (_ & Hdisj & _).
      intros Hin. apply (Hdisj k Hin). simpl. apply elem_of_cons. left.
      reflexivity. }
    rewrite obj_set_fresh by exact Hfresh.
    rewrite IH; rewrite <- app_assoc; simpl; [reflexivity | exact Hnd].
Qed.

(** A literal that writes pairwise distinct keys keeps every property it
    writes, in the order written. *)
Lemma object_literal_distinct props :
  NoDup props.*1 → object_literal props = props.
Proof. intros Hnd. apply (foldl_obj_set_distinct props []). exact Hnd. Qed.

End object_literal_facts.

(** The keys written in the three [alias] literals and in [input]. *)
Lemma main_alias_keys resolve :
  (main_alias resolve).*1
  = ["@main"; "@types"; "@shared"; "@logger"; "@mcp-trace/trace-core";
     "@mcp-trace/trace-node"].
Proof. reflexivity. Qed.

Lemma preload_alias_keys resolve :
  (preload_alias resolve).*1 = ["@shared"; "@mcp-trace/trace-core"].
Proof. reflexivity. Qed.

Lemma renderer_alias_keys resolve :
  (renderer_alias resolve).*1
  = ["@renderer"; "@shared"; "@types"; "@logger"; "@cherrystudio/ai-core";
     "@cherrystudio/extension-table-plus"].
Proof. reflexivity. Qed.

Lemma renderer_input_keys resolve dirname :
  (renderer_input resolve dirname).*1
  = ["index"; "miniWindow"; "selectionToolbar"; "selectionAction";
     "traceWindow"].
Proof. reflexivity. Qed.

(** Distinctness of a list of string literals, by computation. *)
Ltac NoDup_literals :=
  apply (bool_decide_unpack _); vm_compute; exact I.

Lemma main_alias_NoDup resolve : NoDup (main_alias resolve).*1.
Proof. rewrite main_alias_keys. NoDup_literals. Qed.

Lemma preload_alias_NoDup resolve : NoDup (preload_alias resolve).*1.
Proof. rewrite preload_alias_keys. NoDup_literals. Qed.

Lemma renderer_alias_NoDup resolve : NoDup (renderer_alias resolve).*1.
Proof. rewrite renderer_alias_keys. NoDup_literals. Qed.

Lemma renderer_input_NoDup resolve dirname :
  NoDup (renderer_input resolve dirname).*1.
Proof. rewrite renderer_input_keys. NoDup_literals. Qed.

Lemma declared_alias_NoDup resolve t : NoDup (declared_alias resolve t).*1.
Proof.
  destruct t; [apply main_alias_NoDup | apply preload_alias_NoDup
              | apply renderer_alias_NoDup].
Qed.

(** ** Externals, entries and aliases *)

Lemma static_external_NoDup : NoDup static_external.
Proof. NoDup_literals. Qed.

Lemma external_NoDup_iff (keys : list string) :
  NoDup keys →
  NoDup (static_external ++ keys) ↔ ∀ x, x ∈ static_external → x ∉ keys.
Proof.
  intros Hkeys. rewrite NoDup_app. split.
  - intros (_ & Hdisj & _). exact Hdisj.
  - intros Hdisj. split; [apply static_external_NoDup |].
    split; [exact Hdisj | exact Hkeys].
Qed.

(** C2, as the code has it. The main profile's [external] is the three
    static names followed by the keys of [dependencies]; as a set it is
    their union; it is free of duplicates exactly when no dependency is one
    of the static names; for the dependencies [axios] and [zod] it is
    [bufferutil], [utf-8-validate], [electron], [axios], [zod]. *)
Theorem external_static_then_dependencies
    (resolve : list string → string) (env : Env) (pkg : PackageJson)
    (dirname : string) (deps : JSObject string) :
  dependencies pkg = Some deps →
  ∃ c ext, default_export resolve env pkg dirname = Normal c
       ∧ external_list (profile Host c) = Some ext
       ∧ ext = ["bufferutil"; "utf-8-validate"; "electron"] ++ Object_keys deps
       ∧ (∀ x, x ∈ ext ↔ x ∈ static_external ∨ x ∈ Object_keys deps)
       ∧ (NoDup (Object_keys deps) →
          NoDup ext ↔ ∀ x, x ∈ static_external → x ∉ Object_keys deps)
       ∧ (Object_keys deps = ["axios"; "zod"] →
          ext = ["bufferutil"; "utf-8-validate"; "electron"; "axios"; "zod"]).
Proof.
  intros Hdeps. unfold default_export, compose. rewrite Hdeps.
  eexists. exists (static_external ++ Object_keys deps).
  split; [reflexivity |]. split; [reflexivity |]. split; [reflexivity |].
  split; [| split].
  - intros x. apply elem_of_app.
  - apply external_NoDup_iff.
  - intros ->. reflexivity.
Qed.

Lemma external_static_then_dependencies_witness :
  dependencies pkg_axios_zod = Some [("axios", "^1.7.3"); ("zod", "^3.25.76")]
  ∧ ∃ c ext, default_export (Path.resolve "/app") env_development
               pkg_axios_zod "/app" = Normal c
       ∧ external_list (profile Host c) = Some ext
       ∧ ext = ["bufferutil"; "utf-8-validate"; "electron"]
               ++ Object_keys [("axios", "^1.7.3"); ("zod", "^3.25.76")]
       ∧ (∀ x, x ∈ ext ↔ x ∈ static_external
                          ∨ x ∈ Object_keys [("axios", "^1.7.3");
                                             ("zod", "^3.25.76")])
       ∧ (NoDup (Object_keys [("axios", "^1.7.3"); ("zod", "^3.25.76")]) →
          NoDup ext ↔ ∀ x, x ∈ static_external →
                           x ∉ Object_keys [("axios", "^1.7.3");
                                            ("zod", "^3.25.76")])
       ∧ (Object_keys [("axios", "^1.7.3"); ("zod", "^3.25.76")]
          = ["axios"; "zod"] →
          ext = ["bufferutil"; "utf-8-validate"; "electron"; "axios"; "zod"]).
Proof.
  split; [reflexivity |].
  apply (external_static_then_dependencies (Path.resolve "/app")
           env_development pkg_axios_zod "/app"
           [("axios", "^1.7.3"); ("zod", "^3.25.76")]).
  reflexivity.
Defined.

(** C2 as stated fails: a package that depends on [bufferutil] gets an
    [external] list that names it twice. *)
Lemma external_repeats_static_dependency :
  ∃ c ext, default_export (Path.resolve "/app") env_development pkg_bufferutil
             "/app" = Normal c
       ∧ external_list (profile Host c) = Some ext
       ∧ ext = ["bufferutil"; "utf-8-validate"; "electron"; "ws"; "bufferutil"]
       ∧ ¬ NoDup ext.
Proof.
  eexists. eexists. split; [reflexivity |]. split; [reflexivity |].
  split; [reflexivity |].
  change (¬ NoDup ["bufferutil"; "utf-8-validate"; "electron"; "ws";
                   "bufferutil"]).
  intros Hnd. apply NoDup_cons in Hnd as [Hnotin _]. apply Hnotin.
  rewrite !elem_of_cons. do 3 right. left. reflexivity.
Qed.

(** C5. Whatever the environment, the renderer's [input] has exactly the
    five pages [index], [miniWindow], [selectionToolbar], [selectionAction]
    and [traceWindow], each with the path resolved from [__dirname] and
    [src/renderer/<page>.html]. *)
Theorem renderer_entries_fixed
    (resolve : list string → string) (env : Env) (pkg : PackageJson)
    (dirname : string) (deps : JSObject string) :
  dependencies pkg = Some deps →
  ∃ c entries, default_export resolve env pkg dirname = Normal c
       ∧ entry_set (profile UI c) = Some entries
       ∧ entries = renderer_input resolve dirname
       ∧ length entries = 5
       ∧ Object_keys entries
         = ["index"; "miniWindow"; "selectionToolbar"; "selectionAction";
            "traceWindow"]
       ∧ NoDup (Object_keys entries)
       ∧ ∀ page path, (page, path) ∈ entries →
           path = resolve [dirname; "src/renderer/" +:+ page +:+ ".html"].
Proof.
  intros Hdeps. unfold default_export, compose. rewrite Hdeps.
  eexists. exists (renderer_input resolve dirname).
  split; [reflexivity |]. split.
  { change (Some (object_literal (renderer_input resolve dirname))
            = Some (renderer_input resolve dirname)).
    rewrite object_literal_distinct by apply renderer_input_NoDup.
    reflexivity. }
  split; [reflexivity |]. split; [reflexivity |]. split; [reflexivity |].
  split; [apply renderer_input_NoDup |].
  intros page path. unfold renderer_input.
  rewrite !elem_of_cons, elem_of_nil.
  intros Hin. repeat destruct Hin as [Heq | Hin];
    try (injection Heq as -> ->; reflexivity).
  destruct Hin.
Qed.

Lemma renderer_entries_fixed_witness :
  dependencies pkg_axios_zod = Some [("axios", "^1.7.3"); ("zod", "^3.25.76")]
  ∧ ∃ c entries, default_export (Path.resolve "/tmp") env_production
                   pkg_axios_zod "/app" = Normal c
       ∧ entry_set (profile UI c) = Some entries
       ∧ entries = renderer_input (Path.resolve "/tmp") "/app"
       ∧ length entries = 5
       ∧ Object_keys entries
         = ["index"; "miniWindow"; "selectionToolbar"; "selectionAction";
            "traceWindow"]
       ∧ NoDup (Object_keys entries)
       ∧ ∀ page path, (page, path) ∈ entries →
           path = Path.resolve "/tmp"
                    ["/app"; "src/renderer/" +:+ page +:+ ".html"].
Proof.
  split; [reflexivity |].
  apply (renderer_entries_fixed (Path.resolve "/tmp") env_production
           pkg_axios_zod "/app" [("axios", "^1.7.3"); ("zod", "^3.25.76")]).
  reflexivity.
Defined.

Example renderer_entries_posix :
  renderer_input (Path.resolve "/tmp") "/app"
  = [("index", "/app/src/renderer/index.html");
     ("miniWindow", "/app/src/renderer/miniWindow.html");
     ("selectionToolbar", "/app/src/renderer/selectionToolbar.html");
     ("selectionAction", "/app/src/renderer/selectionAction.html");
     ("traceWindow", "/app/src/renderer/traceWindow.html")].
Proof. vm_compute. reflexivity. Qed.

(** ** Determinism *)

(** The module reads the environment through three lookups only, the
    package through the keys of [dependencies], and the resolver through
    its results. *)
Lemma default_export_reads
    (resolve1 resolve2 : list string → string) (env1 env2 : Env)
    (pkg1 pkg2 : PackageJson) (dirname : string) :
  (∀ paths, resolve1 paths = resolve2 paths) →
  env1 !! "NODE_ENV" = env2 !! "NODE_ENV" →
  (∀ type, visualizerEnabledFor env1 type = visualizerEnabledFor env2 type) →
  Object_keys_of (dependencies pkg1) = Object_keys_of (dependencies pkg2) →
  default_export resolve1 env1 pkg1 dirname
  = default_export resolve2 env2 pkg2 dirname.
Proof.
  intros Hresolve Hmode Hvis Hkeys.
  unfold default_export, compose, visualizerPlugin, isDev, isProd.
  unfold main_alias, preload_alias, renderer_alias, renderer_input.
  rewrite Hkeys, Hmode, !Hvis, !Hresolve. reflexivity.
Qed.

(** C8. Two evaluations of the module with the same environment, the same
    package metadata, the same directory and resolvers that agree give the
    same result, profiles or error. *)
Theorem composition_deterministic
    (resolve1 resolve2 : list string → string) (env1 env2 : Env)
    (pkg1 pkg2 : PackageJson) (dirname1 dirname2 : string) :
  (∀ paths, resolve1 paths = resolve2 paths) →
  env1 = env2 →
  pkg1 = pkg2 →
  dirname1 = dirname2 →
  default_export resolve1 env1 pkg1 dirname1
  = default_export resolve2 env2 pkg2 dirname2.
Proof.
  intros Hresolve -> -> ->.
  apply default_export_reads; [exact Hresolve | reflexivity | | reflexivity].
  intros type. reflexivity.
Qed.

Lemma composition_deterministic_witness :
  (∀ paths, Path.resolve "/app" paths = Path.resolve "/app" paths)
  ∧ env_development_visualizer = env_development_visualizer
  ∧ pkg_axios_zod = pkg_axios_zod
  ∧ "/app" = "/app"
  ∧ default_export (Path.resolve "/app") env_development_visualizer
      pkg_axios_zod "/app"
    = default_export (Path.resolve "/app") env_development_visualizer
        pkg_axios_zod "/app".
Proof.
  split; [intros paths; reflexivity |]. split; [reflexivity |].
  split; [reflexivity |]. split; [reflexivity |].
  apply (composition_deterministic (Path.resolve "/app") (Path.resolve "/app")
           env_development_visualizer env_development_visualizer
           pkg_axios_zod pkg_axios_zod "/app" "/app");
    [intros paths; reflexivity | reflexivity | reflexivity | reflexivity].
Defined.

(** Variables the module does not read leave the result unchanged. *)
Example unrelated_variable_ignored :
  default_export (Path.resolve "/app")
    (<[ "HOME" := "/root" ]> env_development) pkg_axios_zod "/app"
  = default_export (Path.resolve "/app") env_development pkg_axios_zod "/app".
Proof.
  apply default_export_reads; reflexivity.
Qed.

(** ** Paths under an absolute directory *)

Lemma string_app_cons (c : ascii) (s t : string) :
  String c s +:+ t = String c (s +:+ t).
Proof. reflexivity. Qed.

Lemma string_app_assoc (s1 s2 s3 : string) :
  (s1 +:+ s2) +:+ s3 = s1 +:+ s2 +:+ s3.
Proof.
  induction s1 as [| c s1 IH]; [reflexivity |].
  rewrite !string_app_cons, IH. reflexivity.
Qed.

Lemma segments_slash_free (s rest : string) :
  slash_free s = true →
  Path.segments (s +:+ "/" +:+ rest) = s :: Path.segments rest.
Proof.
  induction s as [| c s IH]; [reflexivity |].
  simpl slash_free. intros [Hc Hs]%andb_prop. apply negb_true_iff in Hc.
  rewrite string_app_cons. simpl Path.segments. rewrite Hc.
  rewrite IH by exact Hs. reflexivity.
Qed.

Lemma plain_segment_spec (s : string) :
  plain_segment s = true →
  slash_free s = true ∧ s ≠ "" ∧ s ≠ "." ∧ s ≠ "..".
Proof.
  unfold plain_segment. rewrite !andb_true_iff, !negb_true_iff, !String.eqb_neq.
  tauto.
Qed.

Lemma normalize_step_plain (allow : bool) (stack : list string) (s : string) :
  plain_segment s = true → Path.normalize_step allow stack s = s :: stack.
Proof.
  intros (_ & Hne & Hdot & Hdots)%plain_segment_spec. unfold Path.normalize_step.
  destruct (decide (s = "" ∨ s = ".")) as [[?|?] | _]; [contradiction.. |].
  destruct (decide (s = "..")); [contradiction | reflexivity].
Qed.

(** Normalising [segs/rest], started on [stack], keeps the names of [segs]
    and goes on with [rest]. *)
Lemma foldl_normalize_concat (allow : bool) (segs stack : list string)
    (rest : string) :
  Forall (λ s, plain_segment s = true) segs →
  foldl (Path.normalize_step allow) stack
    (Path.segments (String.concat "/" segs +:+ "/" +:+ rest))
  = foldl (Path.normalize_step allow) (reverse segs ++ stack)
      (Path.segments rest).
Proof.
  intros Hsegs. revert stack.
  induction Hsegs as [| s segs Hs Hsegs IH]; intros stack; [reflexivity |].
  assert (Hfree : slash_free s = true) by apply (plain_segment_spec s Hs).
  rewrite reverse_cons, <- app_assoc. simpl app.
  destruct segs as [| s' segs].
  - change (String.concat "/" [s]) with s.
    rewrite segments_slash_free by exact Hfree.
    cbn [foldl]. rewrite normalize_step_plain by exact Hs. reflexivity.
  - change (String.concat "/" (s :: s' :: segs))
      with (s +:+ "/" +:+ String.concat "/" (s' :: segs)).
    rewrite !string_app_assoc. rewrite segments_slash_free by exact Hfree.
    cbn [foldl]. rewrite normalize_step_plain by exact Hs.
    apply IH.
Qed.

Lemma normalize_step_empty (allow : bool) (stack : list string) :
  Path.normalize_step allow stack "" = stack.
Proof.
  unfold Path.normalize_step.
  destruct (decide ("" = "" ∨ "" = ".")) as [_ | Hno]; [reflexivity |].
  destruct Hno. left. reflexivity.
Qed.

(** A path of plain names is not empty and not absolute. *)
Lemma concat_plain_head (s : string) (segs : list string) :
  plain_segment s = true →
  ∃ c t, String.concat "/" (s :: segs) = String c t ∧ Ascii.eqb c "/" = false.
Proof.
  intros (Hfree & Hne & _)%plain_segment_spec.
  destruct s as [| c s]; [contradiction |].
  simpl in Hfree. apply andb_prop in Hfree as [Hc _].
  apply negb_true_iff in Hc.
  destruct segs as [| s' segs].
  - exists c, s. split; [reflexivity | exact Hc].
  - exists c, (s +:+ "/" +:+ String.concat "/" (s' :: segs)).
    split; [reflexivity | exact Hc].
Qed.

Lemma concat_snoc (segs : list string) (s : string) :
  segs ≠ [] →
  String.concat "/" (segs ++ [s]) = String.concat "/" segs +:+ "/" +:+ s.
Proof.
  induction segs as [| s1 segs IH]; [contradiction |]. intros _.
  destruct segs as [| s2 segs]; [reflexivity |].
  change (String.concat "/" ((s1 :: s2 :: segs) ++ [s]))
    with (s1 +:+ "/" +:+ String.concat "/" ((s2 :: segs) ++ [s])).
  rewrite IH by discriminate.
  change (String.concat "/" (s1 :: s2 :: segs))
    with (s1 +:+ "/" +:+ String.concat "/" (s2 :: segs)).
  rewrite !string_app_assoc. reflexivity.
Qed.

(** Resolving a relative path of plain names against an absolute directory
    of plain names appends it. *)
Lemma resolve_under_absolute (cwd : string) (dir rel : list string) :
  Forall (λ s, plain_segment s = true) dir →
  Forall (λ s, plain_segment s = true) rel →
  rel ≠ [] →
  Path.resolve cwd ["/" +:+ String.concat "/" dir; String.concat "/" rel]
  = "/" +:+ String.concat "/" (dir ++ rel).
Proof.
  intros Hdir Hrel Hne.
  destruct rel as [| s rel']; [contradiction |].
  destruct (concat_plain_head s rel') as (c & t & Hhead & Hc).
  { inversion Hrel; assumption. }
  unfold Path.resolve.
  change (reverse ["/" +:+ String.concat "/" dir; String.concat "/" (s :: rel')]
          ++ [cwd])
    with [String.concat "/" (s :: rel'); "/" +:+ String.concat "/" dir; cwd].
  cbn [Path.join_from_right].
  destruct (decide (String.concat "/" (s :: rel') = "")) as [Hempty | _].
  { rewrite Hhead in Hempty. discriminate. }
  replace (Path.is_absolute (String.concat "/" (s :: rel'))) with false
    by (rewrite Hhead; simpl; rewrite Hc; reflexivity).
  destruct (decide ("/" +:+ String.concat "/" dir = "")) as [Hempty | _];
    [discriminate |].
  change (Path.is_absolute ("/" +:+ String.concat "/" dir)) with true.
  cbn [negb]. unfold Path.normalizeString.
  change (("/" +:+ String.concat "/" dir) +:+ "/"
          +:+ String.concat "/" (s :: rel') +:+ "/" +:+ "")
    with (String "/" (String.concat "/" dir +:+ "/"
          +:+ String.concat "/" (s :: rel') +:+ "/" +:+ "")).
  cbn [Path.segments]. change (Ascii.eqb "/" "/") with true. cbn [foldl].
  rewrite normalize_step_empty.
  rewrite foldl_normalize_concat by exact Hdir.
  rewrite foldl_normalize_concat by exact Hrel.
  change (Path.segments "") with [""]. cbn [foldl].
  rewrite normalize_step_empty, app_nil_r, <- reverse_app, reverse_involutive.
  reflexivity.
Qed.

(** X14. On POSIX, with [__dirname] an absolute path of plain names, every
    entry of the renderer's [input] is the file [<page>.html] directly under
    the directory [src/renderer] of [__dirname]. *)
Lemma renderer_input_under_source_root_posix
    (cwd : string) (dir : list string) (page path : string) :
  Forall (λ s, plain_segment s = true) dir →
  (page, path)
    ∈ renderer_input (Path.resolve cwd) ("/" +:+ String.concat "/" dir) →
  path = Path.resolve cwd ["/" +:+ String.concat "/" dir; "src/renderer"]
         +:+ "/" +:+ page +:+ ".html".
Proof.
  intros Hdir Hin.
  assert (Hroot : Path.resolve cwd
                    ["/" +:+ String.concat "/" dir; "src/renderer"]
                  = "/" +:+ String.concat "/" (dir ++ ["src"; "renderer"])).
  { apply (resolve_under_absolute cwd dir ["src"; "renderer"] Hdir);
      [repeat constructor | discriminate]. }
  assert (Hfile : ∀ file, plain_segment file = true →
            Path.resolve cwd ["/" +:+ String.concat "/" dir;
                              "src/renderer/" +:+ file]
            = Path.resolve cwd
                ["/" +:+ String.concat "/" dir; "src/renderer"]
              +:+ "/" +:+ file).
  { intros file Hfile. rewrite Hroot.
    change ("src/renderer/" +:+ file)
      with (String.concat "/" ["src"; "renderer"; file]).
    rewrite (resolve_under_absolute cwd dir ["src"; "renderer"; file] Hdir);
      [| repeat constructor; exact Hfile | discriminate].
    change (dir ++ ["src"; "renderer"; file])
      with (dir ++ ["src"; "renderer"] ++ [file]).
    rewrite app_assoc, concat_snoc, string_app_assoc; [reflexivity |].
    destruct dir; discriminate. }
  unfold renderer_input in Hin.
  rewrite !elem_of_cons, elem_of_nil in Hin.
  repeat destruct Hin as [Heq | Hin];
    try (injection Heq as -> ->; apply Hfile; reflexivity).
  destruct Hin.
Qed.

Example source_root_posix :
  Path.resolve "/tmp" ["/" +:+ String.concat "/" ["opt"; "cherry-studio"];
                       "src/renderer"]
  = "/opt/cherry-studio/src/renderer".
Proof. vm_compute. reflexivity. Qed.

(** ** The warning handler *)

(** X1. Over any run of warnings, [onwarn] hands to [warn] exactly those
    whose code is not [COMMONJS_VARIABLE_IN_ESM], each once, unchanged and
    in order; a warning without a code is passed on. *)
Theorem onwarn_filters (warnings : list Rollup.Warning) :
  warnings ≫= onwarn
  = filter (λ w, Rollup.code w ≠ Some "COMMONJS_VARIABLE_IN_ESM") warnings.
Proof.
  induction warnings as [| w warnings IH]; [reflexivity |].
  rewrite bind_cons, IH. unfold onwarn.
  destruct (strict_eq (Rollup.code w) "COMMONJS_VARIABLE_IN_ESM") eqn:Hcode.
  - apply strict_eq_true in Hcode.
    rewrite filter_cons_False by (intros Hne; contradiction). reflexivity.
  - apply strict_eq_false in Hcode.
    rewrite filter_cons_True by exact Hcode. reflexivity.
Qed.

Example onwarn_run :
  [ {| Rollup.code := Some "CIRCULAR_DEPENDENCY"; Rollup.message := "a" |};
    {| Rollup.code := Some "COMMONJS_VARIABLE_IN_ESM"; Rollup.message := "b" |};
    {| Rollup.code := None; Rollup.message := "c" |} ] ≫= onwarn
  = [ {| Rollup.code := Some "CIRCULAR_DEPENDENCY"; Rollup.message := "a" |};
      {| Rollup.code := None; Rollup.message := "c" |} ].
Proof. reflexivity. Qed.

(** ** The visualizer switch *)

Lemma truthy_true (v : option string) :
  truthy v = true ↔ ∃ s, v = Some s ∧ s ≠ "".
Proof.
  destruct v as [s |]; simpl.
  - rewrite negb_true_iff, String.eqb_neq. split.
    + intros Hne. exists s. split; [reflexivity | exact Hne].
    + intros (s' & [= <-] & Hne). exact Hne.
  - split; [discriminate | intros (s & Hs & _); discriminate].
Qed.

Lemma truthy_false (v : option string) :
  truthy v = false ↔ v = None ∨ v = Some "".
Proof.
  destruct v as [s |]; simpl.
  - rewrite negb_false_iff, String.eqb_eq. split.
    + intros ->. right. reflexivity.
    + intros [Hnone | [= ->]]; [discriminate | reflexivity].
  - split; [intros _; left; reflexivity | reflexivity].
Qed.

(** X2. [visualizerPlugin('main')] reads [VISUALIZER_MAIN] and
    [visualizerPlugin('renderer')] reads [VISUALIZER_RENDERER]; the result
    is the one visualizer (opened after the build) when the variable holds
    a non-empty string, whatever it says, and nothing when the variable is
    unset or empty. *)
Theorem visualizerPlugin_truthy (env : Env) (type : VisualizerType) :
  visualizer_variable type
  = match type with
    | type_main => "VISUALIZER_MAIN"
    | type_renderer => "VISUALIZER_RENDERER"
    end
  ∧ (visualizerPlugin env type = [plugin (visualizer true)]
     ↔ ∃ s, env !! visualizer_variable type = Some s ∧ s ≠ "")
  ∧ (visualizerPlugin env type = []
     ↔ env !! visualizer_variable type = None
       ∨ env !! visualizer_variable type = Some "").
Proof.
  split; [destruct type; reflexivity |].
  rewrite <- truthy_true, <- truthy_false.
  fold (visualizerEnabledFor env type). unfold visualizerPlugin.
  destruct (visualizerEnabledFor env type); repeat split; congruence.
Qed.

Example visualizer_any_text :
  visualizerPlugin {[ "VISUALIZER_MAIN" := "false" ]} type_main
  = [plugin (visualizer true)]
  ∧ visualizerPlugin {[ "VISUALIZER_MAIN" := "" ]} type_main = []
  ∧ visualizerPlugin {[ "visualizer_main" := "1" ]} type_main = [].
Proof. repeat split; vm_compute; reflexivity. Qed.

Lemma isDev_insert_ne (env : Env) (k v : string) :
  k ≠ "NODE_ENV" → isDev (<[k := v]> env) = isDev env.
Proof. intros Hne. unfold isDev. rewrite lookup_insert_ne by exact Hne. reflexivity. Qed.

Lemma isProd_insert_ne (env : Env) (k v : string) :
  k ≠ "NODE_ENV" → isProd (<[k := v]> env) = isProd env.
Proof. intros Hne. unfold isProd. rewrite lookup_insert_ne by exact Hne. reflexivity. Qed.

Lemma visualizerEnabledFor_insert_ne (env : Env) (k v : string)
    (type : VisualizerType) :
  k ≠ visualizer_variable type →
  visualizerEnabledFor (<[k := v]> env) type = visualizerEnabledFor env type.
Proof.
  intros Hne. unfold visualizerEnabledFor.
  rewrite lookup_insert_ne by exact Hne. reflexivity.
Qed.

Lemma visualizerEnabledFor_insert_eq (env : Env) (v : string)
    (type : VisualizerType) :
  visualizerEnabledFor (<[visualizer_variable type := v]> env) type
  = negb (String.eqb v "").
Proof. unfold visualizerEnabledFor. rewrite lookup_insert_eq. reflexivity. Qed.

Lemma visualizer_variable_not_mode (type : VisualizerType) :
  visualizer_variable type ≠ "NODE_ENV".
Proof. destruct type; discriminate. Qed.

Lemma visualizer_variable_inj (type1 type2 : VisualizerType) :
  visualizer_variable type1 = visualizer_variable type2 → type1 = type2.
Proof. destruct type1, type2; (reflexivity || discriminate). Qed.

(** X3. Setting the variable that [visualizerPlugin(type)] reads touches
    the plugins of that one profile only: the two other profiles stay as
    they were, and so does every other key of the profile itself. The
    visualizer is then among its plugins exactly when the value is not
    empty. *)
Theorem visualizer_variable_frame
    (resolve : list string → string) (env : Env) (pkg : PackageJson)
    (dirname : string) (deps : JSObject string) (type : VisualizerType)
    (v : string) :
  dependencies pkg = Some deps →
  ∃ c c',
    default_export resolve env pkg dirname = Normal c
    ∧ default_export resolve (<[visualizer_variable type := v]> env) pkg dirname
      = Normal c'
    ∧ (∀ t, t ≠ visualizer_target type → profile t c' = profile t c)
    ∧ Vite.resolve (profile (visualizer_target type) c')
      = Vite.resolve (profile (visualizer_target type) c)
    ∧ Vite.build (profile (visualizer_target type) c')
      = Vite.build (profile (visualizer_target type) c)
    ∧ Vite.esbuild (profile (visualizer_target type) c')
      = Vite.esbuild (profile (visualizer_target type) c)
    ∧ Vite.optimizeDeps (profile (visualizer_target type) c')
      = Vite.optimizeDeps (profile (visualizer_target type) c)
    ∧ Vite.worker (profile (visualizer_target type) c')
      = Vite.worker (profile (visualizer_target type) c)
    ∧ ((∃ o, o ∈ Vite.plugins (profile (visualizer_target type) c')
             ∧ is_visualizer o = true)
       ↔ v ≠ "").
Proof.
  intros Hdeps. unfold default_export, compose. rewrite Hdeps.
  eexists. eexists. split; [reflexivity |]. split; [reflexivity |].
  assert (Hdev : isDev (<[visualizer_variable type := v]> env) = isDev env)
    by apply isDev_insert_ne, visualizer_variable_not_mode.
  assert (Hprod : isProd (<[visualizer_variable type := v]> env) = isProd env)
    by apply isProd_insert_ne, visualizer_variable_not_mode.
  assert (Hother : ∀ type', type' ≠ type →
            visualizerEnabledFor (<[visualizer_variable type := v]> env) type'
            = visualizerEnabledFor env type').
  { intros type' Hne. apply visualizerEnabledFor_insert_ne.
    intros Heq. apply Hne. symmetry. apply visualizer_variable_inj, Heq. }
  pose proof (visualizerEnabledFor_insert_eq env v type) as Hself.
  unfold visualizerPlugin.
  destruct type;
    cbn [visualizer_target profile main preload renderer defineConfig
         Vite.resolve Vite.build Vite.esbuild Vite.optimizeDeps Vite.worker
         Vite.plugins];
    rewrite ?Hdev, ?Hprod, Hself.
  - rewrite (Hother type_main) by discriminate.
    split; [intros [| |] Ht; [reflexivity | reflexivity | contradiction] |].
    repeat (split; [reflexivity |]).
    rewrite <- String.eqb_neq, <- negb_true_iff.
    destruct (negb (v =? "")%string); split; try congruence.
    + intros _. exists (plugin (visualizer true)). split; [| reflexivity].
      destruct (isDev env); simpl; rewrite !elem_of_cons; auto.
    + intros (o & Ho & Hvis). exfalso. revert Ho Hvis.
      destruct (isDev env); simpl; rewrite !elem_of_cons, elem_of_nil;
        intros Ho; repeat destruct Ho as [-> | Ho]; try discriminate;
        destruct Ho.
  - rewrite (Hother type_renderer) by discriminate.
    split; [intros [| |] Ht; [contradiction | reflexivity | reflexivity] |].
    repeat (split; [reflexivity |]).
    rewrite <- String.eqb_neq, <- negb_true_iff.
    destruct (negb (v =? "")%string); split; try congruence.
    + intros _. exists (plugin (visualizer true)).
      split; [apply list_elem_of_singleton |]; reflexivity.
    + intros (o & Ho & _). apply elem_of_nil in Ho. destruct Ho.
Qed.

Lemma visualizer_variable_frame_witness :
  dependencies pkg_axios_zod = Some [("axios", "^1.7.3"); ("zod", "^3.25.76")]
  ∧ ∃ c c',
    default_export (Path.resolve "/app") env_development pkg_axios_zod "/app"
    = Normal c
    ∧ default_export (Path.resolve "/app")
        (<[visualizer_variable type_main := "1"]> env_development)
        pkg_axios_zod "/app" = Normal c'
    ∧ (∀ t, t ≠ visualizer_target type_main → profile t c' = profile t c)
    ∧ Vite.resolve (profile (visualizer_target type_main) c')
      = Vite.resolve (profile (visualizer_target type_main) c)
    ∧ Vite.build (profile (visualizer_target type_main) c')
      = Vite.build (profile (visualizer_target type_main) c)
    ∧ Vite.esbuild (profile (visualizer_target type_main) c')
      = Vite.esbuild (profile (visualizer_target type_main) c)
    ∧ Vite.optimizeDeps (profile (visualizer_target type_main) c')
      = Vite.optimizeDeps (profile (visualizer_target type_main) c)
    ∧ Vite.worker (profile (visualizer_target type_main) c')
      = Vite.worker (profile (visualizer_target type_main) c)
    ∧ ((∃ o, o ∈ Vite.plugins (profile (visualizer_target type_main) c')
             ∧ is_visualizer o = true)
       ↔ "1" ≠ "").
Proof.
  split; [reflexivity |].
  apply (visualizer_variable_frame (Path.resolve "/app") env_development
           pkg_axios_zod "/app" [("axios", "^1.7.3"); ("zod", "^3.25.76")]
           type_main "1").
  reflexivity.
Defined.

(** ** What the module reads of the environment *)

(** X4. The environment matters through four flags only: two environments
    that agree on [isDev], on [isProd] and on the two visualizer switches
    give the same result, whatever [NODE_ENV] and the other variables
    hold. *)
Theorem default_export_flags
    (resolve : list string → string) (env1 env2 : Env) (pkg : PackageJson)
    (dirname : string) :
  isDev env1 = isDev env2 →
  isProd env1 = isProd env2 →
  (∀ type, visualizerEnabledFor env1 type = visualizerEnabledFor env2 type) →
  default_export resolve env1 pkg dirname
  = default_export resolve env2 pkg dirname.
Proof.
  intros Hdev Hprod Hvis.
  unfold default_export, compose, visualizerPlugin.
  rewrite Hdev, Hprod, !Hvis. reflexivity.
Qed.

Lemma default_export_flags_witness :
  isDev ∅ = isDev env_test
  ∧ isProd ∅ = isProd env_test
  ∧ (∀ type, visualizerEnabledFor ∅ type = visualizerEnabledFor env_test type)
  ∧ default_export (Path.resolve "/app") ∅ pkg_axios_zod "/app"
    = default_export (Path.resolve "/app") env_test pkg_axios_zod "/app".
Proof.
  split; [vm_compute; reflexivity |]. split; [vm_compute; reflexivity |].
  split; [intros [|]; vm_compute; reflexivity |].
  apply (default_export_flags (Path.resolve "/app") ∅ env_test pkg_axios_zod
           "/app");
    [vm_compute; reflexivity | vm_compute; reflexivity
     | intros [|]; vm_compute; reflexivity].
Defined.

(** ** Package metadata *)

(** X5. For a [package.json] whose [dependencies] is absent, [null] or an
    object: the module throws a [TypeError] exactly when it is absent or
    [null], in every environment, and then no profile is produced, the
    preload and renderer ones included. An empty object is fine: the
    externals are then the three static names alone. Versions play no part:
    objects with the same names give the same result. *)
Theorem dependencies_absent_null_or_empty
    (resolve : list string → string) (env : Env) (dirname : string)
    (d : DependenciesProperty) :
  (default_export resolve env (read_package d) dirname
   = Throw (TypeError "Cannot convert undefined or null to object")
   ↔ d = dependencies_absent ∨ d = dependencies_null)
  ∧ ((∃ c, default_export resolve env (read_package d) dirname = Normal c)
     ↔ ∃ o, d = dependencies_object o)
  ∧ (d = dependencies_object [] →
     ∃ c, default_export resolve env (read_package d) dirname = Normal c
          ∧ external_list (profile Host c)
            = Some ["bufferutil"; "utf-8-validate"; "electron"])
  ∧ (∀ o o', d = dependencies_object o →
             Object_keys o = Object_keys o' →
       default_export resolve env (read_package (dependencies_object o'))
         dirname
       = default_export resolve env (read_package d) dirname).
Proof.
  unfold default_export, compose, mret, Completion_ret.
  split; [| split; [| split]].
  - destruct d as [| | o]; simpl; split; try congruence; auto.
    intros [Heq | Heq]; discriminate Heq.
  - destruct d as [| | o]; simpl; split;
      try (intros [c Hc]; discriminate Hc);
      try (intros [o' Ho']; discriminate Ho').
    + intros _. exists o. reflexivity.
    + intros _. eexists. reflexivity.
  - intros ->. eexists. split; reflexivity.
  - intros o o' -> Hkeys. simpl. rewrite Hkeys. reflexivity.
Qed.

Example export_null_dependencies :
  default_export (Path.resolve "/app") env_development
    (read_package dependencies_null) "/app"
  = Throw (TypeError "Cannot convert undefined or null to object").
Proof. reflexivity. Qed.

Example export_empty_dependencies :
  (λ c, external_list (main c)) <$>
    (match default_export (Path.resolve "/app") env_production
             pkg_empty_dependencies "/app" with
     | Normal c => Some c
     | Throw _ => None
     end)
  = Some (Some ["bufferutil"; "utf-8-validate"; "electron"]).
Proof. vm_compute. reflexivity. Qed.

(** ** The mode toggles *)

Lemma strict_eq_Some_true (b : bool) : Some b = Some true ↔ b = true.
Proof. split; congruence. Qed.

Lemma esbuild_stripped_iff (b : bool) :
  Some (if b then {| Vite.legalComments := Some "none" |}
        else {| Vite.legalComments := None |}) ≫= Vite.legalComments
  = Some "none" ↔ b = true.
Proof. destruct b; simpl; split; congruence. Qed.

(** X6. The toggles, exactly: main and preload emit source maps if and only
    if [NODE_ENV] is ['development'], and so does main switch dependency
    discovery off; main and renderer strip legal comments if and only if
    [NODE_ENV] is ['production']; the renderer never asks for source maps
    and preload never strips legal comments. *)
Theorem toggles_follow_mode
    (resolve : list string → string) (env : Env) (pkg : PackageJson)
    (dirname : string) (deps : JSObject string) :
  dependencies pkg = Some deps →
  ∃ c, default_export resolve env pkg dirname = Normal c
       ∧ (sourcemap_enabled (profile Host c)
          ↔ env !! "NODE_ENV" = Some "development")
       ∧ (sourcemap_enabled (profile Bridge c)
          ↔ env !! "NODE_ENV" = Some "development")
       ∧ (noDiscovery_option (profile Host c) = Some true
          ↔ env !! "NODE_ENV" = Some "development")
       ∧ (legal_comments_stripped (profile Host c)
          ↔ env !! "NODE_ENV" = Some "production")
       ∧ (legal_comments_stripped (profile UI c)
          ↔ env !! "NODE_ENV" = Some "production")
       ∧ ¬ sourcemap_enabled (profile UI c)
       ∧ ¬ legal_comments_stripped (profile Bridge c).
Proof.
  intros Hdeps. run_export Hdeps.
  rewrite <- isDev_true, <- isProd_true.
  repeat (split; [apply strict_eq_Some_true || apply esbuild_stripped_iff |]).
  split; discriminate.
Qed.

Lemma toggles_follow_mode_witness :
  dependencies pkg_axios_zod = Some [("axios", "^1.7.3"); ("zod", "^3.25.76")]
  ∧ ∃ c, default_export (Path.resolve "/app") env_production pkg_axios_zod
           "/app" = Normal c
       ∧ (sourcemap_enabled (profile Host c)
          ↔ env_production !! "NODE_ENV" = Some "development")
       ∧ (sourcemap_enabled (profile Bridge c)
          ↔ env_production !! "NODE_ENV" = Some "development")
       ∧ (noDiscovery_option (profile Host c) = Some true
          ↔ env_production !! "NODE_ENV" = Some "development")
       ∧ (legal_comments_stripped (profile Host c)
          ↔ env_production !! "NODE_ENV" = Some "production")
       ∧ (legal_comments_stripped (profile UI c)
          ↔ env_production !! "NODE_ENV" = Some "production")
       ∧ ¬ sourcemap_enabled (profile UI c)
       ∧ ¬ legal_comments_stripped (profile Bridge c).
Proof.
  split; [reflexivity |].
  apply (toggles_follow_mode (Path.resolve "/app") env_production
           pkg_axios_zod "/app" [("axios", "^1.7.3"); ("zod", "^3.25.76")]).
  reflexivity.
Defined.

(** X7. In no environment does a profile both emit source maps and strip
    legal comments, and a profile that strips legal comments never has
    dependency discovery switched off. *)
Theorem sourcemaps_and_stripping_exclusive
    (resolve : list string → string) (env : Env) (pkg : PackageJson)
    (dirname : string) (deps : JSObject string) :
  dependencies pkg = Some deps →
  ∃ c, default_export resolve env pkg dirname = Normal c
       ∧ ∀ t, legal_comments_stripped (profile t c) →
              ¬ sourcemap_enabled (profile t c)
              ∧ noDiscovery_option (profile t c) ≠ Some true.
Proof.
  intros Hdeps. run_export Hdeps.
  intros [| |]; cbn.
  - intros Hprod%esbuild_stripped_iff.
    rewrite (isProd_not_isDev env Hprod). split; discriminate.
  - discriminate.
  - intros _. split; discriminate.
Qed.

Lemma sourcemaps_and_stripping_exclusive_witness :
  dependencies pkg_axios_zod = Some [("axios", "^1.7.3"); ("zod", "^3.25.76")]
  ∧ ∃ c, default_export (Path.resolve "/app") env_production pkg_axios_zod
           "/app" = Normal c
       ∧ ∀ t, legal_comments_stripped (profile t c) →
              ¬ sourcemap_enabled (profile t c)
              ∧ noDiscovery_option (profile t c) ≠ Some true.
Proof.
  split; [reflexivity |].
  apply (sourcemaps_and_stripping_exclusive (Path.resolve "/app")
           env_production pkg_axios_zod "/app"
           [("axios", "^1.7.3"); ("zod", "^3.25.76")]).
  reflexivity.
Defined.

(** ** Plugins in every mode *)

(** X8. In every environment the renderer's plugins begin with the CSS
    plugin and the React plugin, and they are the full sequence (CSS, React,
    source inspector, visualizer) with some of the last two left out, the
    order kept: [2] plugins plus one in development mode plus one with the
    visualizer switch; the visualizer is among them exactly when
    [VISUALIZER_RENDERER] is truthy. *)
Theorem renderer_plugins_structure
    (resolve : list string → string) (env : Env) (pkg : PackageJson)
    (dirname : string) (deps : JSObject string) :
  dependencies pkg = Some deps →
  ∃ c, default_export resolve env pkg dirname = Normal c
       ∧ take 2 (Vite.plugins (profile UI c))
         = [promise tailwindcss; plugin (react true)]
       ∧ Vite.plugins (profile UI c)
         `sublist_of` [promise tailwindcss; plugin (react true);
                       plugin (CodeInspectorPlugin "vite");
                       plugin (visualizer true)]
       ∧ length (Vite.plugins (profile UI c))
         = 2 + (if isDev env then 1 else 0)
           + (if visualizerEnabledFor env type_renderer then 1 else 0)
       ∧ ((∃ o, o ∈ Vite.plugins (profile UI c) ∧ is_visualizer o = true)
          ↔ visualizerEnabledFor env type_renderer = true).
Proof.
  intros Hdeps. run_export Hdeps. unfold visualizerPlugin.
  destruct (isDev env), (visualizerEnabledFor env type_renderer); cbn;
    (split; [reflexivity |]);
    (split; [repeat first [apply sublist_nil | apply sublist_skip
                          | apply sublist_cons] |]);
    (split; [reflexivity |]); split;
    first [ intros _; reflexivity
          | discriminate
          | solve [ intros _; exists (plugin (visualizer true));
                    split; [rewrite !elem_of_cons; auto 7 | reflexivity] ]
          | intros (o & Ho & Hvis); revert Ho Hvis;
            rewrite !elem_of_cons, elem_of_nil; intros Ho;
            repeat destruct Ho as [-> | Ho]; try discriminate; destruct Ho ].
Qed.

Lemma renderer_plugins_structure_witness :
  dependencies pkg_axios_zod = Some [("axios", "^1.7.3"); ("zod", "^3.25.76")]
  ∧ ∃ c, default_export (Path.resolve "/app") env_production pkg_axios_zod
           "/app" = Normal c
       ∧ take 2 (Vite.plugins (profile UI c))
         = [promise tailwindcss; plugin (react true)]
       ∧ Vite.plugins (profile UI c)
         `sublist_of` [promise tailwindcss; plugin (react true);
                       plugin (CodeInspectorPlugin "vite");
                       plugin (visualizer true)]
       ∧ length (Vite.plugins (profile UI c))
         = 2 + (if isDev env_production then 1 else 0)
           + (if visualizerEnabledFor env_production type_renderer
              then 1 else 0)
       ∧ ((∃ o, o ∈ Vite.plugins (profile UI c) ∧ is_visualizer o = true)
          ↔ visualizerEnabledFor env_production type_renderer = true).
Proof.
  split; [reflexivity |].
  apply (renderer_plugins_structure (Path.resolve "/app") env_production
           pkg_axios_zod "/app" [("axios", "^1.7.3"); ("zod", "^3.25.76")]).
  reflexivity.
Defined.

(** X9. The source inspector is a plugin of some profile if and only if
    [NODE_ENV] is ['development'], and then of the renderer alone: main and
    preload never carry it. *)
Theorem source_inspection_only_renderer_development
    (resolve : list string → string) (env : Env) (pkg : PackageJson)
    (dirname : string) (deps : JSObject string) :
  dependencies pkg = Some deps →
  ∃ c, default_export resolve env pkg dirname = Normal c
       ∧ ((∃ t o, o ∈ Vite.plugins (profile t c)
                  ∧ is_source_inspection o = true)
          ↔ env !! "NODE_ENV" = Some "development")
       ∧ ∀ t o, o ∈ Vite.plugins (profile t c) →
                is_source_inspection o = true → t = UI.
Proof.
  intros Hdeps. run_export Hdeps. unfold visualizerPlugin.
  rewrite <- isDev_true. split; [split |].
  - intros (t & o & Ho & Hinsp). revert Ho Hinsp.
    destruct t, (isDev env), (visualizerEnabledFor env type_main),
      (visualizerEnabledFor env type_renderer); cbn;
      rewrite ?elem_of_cons, elem_of_nil; intros Ho;
      repeat destruct Ho as [-> | Ho]; try discriminate; try reflexivity;
      destruct Ho.
  - intros ->. exists UI, (plugin (CodeInspectorPlugin "vite")). cbn.
    split; [| reflexivity]. rewrite !elem_of_cons. auto.
  - intros t o Ho Hinsp. revert Ho Hinsp.
    destruct t, (isDev env), (visualizerEnabledFor env type_main),
      (visualizerEnabledFor env type_renderer); cbn;
      rewrite ?elem_of_cons, elem_of_nil; intros Ho;
      repeat destruct Ho as [-> | Ho]; try discriminate; try reflexivity;
      destruct Ho.
Qed.

Lemma source_inspection_only_renderer_development_witness :
  dependencies pkg_axios_zod = Some [("axios", "^1.7.3"); ("zod", "^3.25.76")]
  ∧ ∃ c, default_export (Path.resolve "/app") env_development pkg_axios_zod
           "/app" = Normal c
       ∧ ((∃ t o, o ∈ Vite.plugins (profile t c)
                  ∧ is_source_inspection o = true)
          ↔ env_development !! "NODE_ENV" = Some "development")
       ∧ ∀ t o, o ∈ Vite.plugins (profile t c) →
                is_source_inspection o = true → t = UI.
Proof.
  split; [reflexivity |].
  apply (source_inspection_only_renderer_development (Path.resolve "/app")
           env_development pkg_axios_zod "/app"
           [("axios", "^1.7.3"); ("zod", "^3.25.76")]).
  reflexivity.
Defined.

(** ** The preload profile *)

(** X10. The preload profile depends only on [isDev] and on the two paths
    its aliases resolve to: runs that agree on these give the same preload
    profile, whatever production mode, the visualizer switches, the package
    and the directory are. Its one plugin is always the React plugin with
    decorators. *)
Theorem preload_depends_on_isDev_and_alias_paths
    (resolve1 resolve2 : list string → string) (env1 env2 : Env)
    (pkg1 pkg2 : PackageJson) (dirname1 dirname2 : string)
    (deps1 deps2 : JSObject string) :
  dependencies pkg1 = Some deps1 →
  dependencies pkg2 = Some deps2 →
  isDev env1 = isDev env2 →
  resolve1 ["packages/shared"] = resolve2 ["packages/shared"] →
  resolve1 ["packages/mcp-trace/trace-core"]
  = resolve2 ["packages/mcp-trace/trace-core"] →
  ∃ c1 c2, default_export resolve1 env1 pkg1 dirname1 = Normal c1
       ∧ default_export resolve2 env2 pkg2 dirname2 = Normal c2
       ∧ profile Bridge c1 = profile Bridge c2
       ∧ Vite.plugins (profile Bridge c1) = [plugin (react true)].
Proof.
  intros Hdeps1 Hdeps2 Hdev Hshared Htrace. unfold default_export, compose.
  rewrite Hdeps1, Hdeps2. eexists. eexists.
  split; [reflexivity |]. split; [reflexivity |].
  cbn [profile preload defineConfig Vite.plugins]. unfold preload_alias.
  rewrite Hdev, Hshared, Htrace. split; reflexivity.
Qed.

Lemma preload_depends_on_isDev_and_alias_paths_witness :
  dependencies pkg_axios_zod = Some [("axios", "^1.7.3"); ("zod", "^3.25.76")]
  ∧ dependencies pkg_bufferutil
    = Some [("ws", "^8.18.0"); ("bufferutil", "^4.0.8")]
  ∧ isDev env_production = isDev env_test
  ∧ Path.resolve "/app" ["packages/shared"]
    = Path.resolve "/app/src/.." ["packages/shared"]
  ∧ Path.resolve "/app" ["packages/mcp-trace/trace-core"]
    = Path.resolve "/app/src/.." ["packages/mcp-trace/trace-core"]
  ∧ ∃ c1 c2, default_export (Path.resolve "/app") env_production
               pkg_axios_zod "/app" = Normal c1
       ∧ default_export (Path.resolve "/app/src/..") env_test pkg_bufferutil
           "/opt" = Normal c2
       ∧ profile Bridge c1 = profile Bridge c2
       ∧ Vite.plugins (profile Bridge c1) = [plugin (react true)].
Proof.
  split; [reflexivity |]. split; [reflexivity |].
  split; [vm_compute; reflexivity |]. split; [vm_compute; reflexivity |].
  split; [vm_compute; reflexivity |].
  apply (preload_depends_on_isDev_and_alias_paths (Path.resolve "/app")
           (Path.resolve "/app/src/..") env_production env_test pkg_axios_zod
           pkg_bufferutil "/app" "/opt"
           [("axios", "^1.7.3"); ("zod", "^3.25.76")]
           [("ws", "^8.18.0"); ("bufferutil", "^4.0.8")]);
    [reflexivity | reflexivity | vm_compute; reflexivity
     | vm_compute; reflexivity | vm_compute; reflexivity].
Defined.

(** With another working directory the preload aliases, and so the
    profile, are others. *)
Example preload_alias_follows_cwd :
  preload_alias (Path.resolve "/a") ≠ preload_alias (Path.resolve "/b").
Proof. vm_compute. discriminate. Qed.

(** ** Aliases across the profiles *)

Lemma alias_maps_as_declared
    (resolve : list string → string) (env : Env) (pkg : PackageJson)
    (dirname : string) (deps : JSObject string) :
  dependencies pkg = Some deps →
  ∃ c, default_export resolve env pkg dirname = Normal c
       ∧ ∀ t, alias_map (profile t c) = declared_alias resolve t.
Proof.
  intros Hdeps. unfold default_export, compose. rewrite Hdeps.
  eexists. split; [reflexivity |].
  intros [| |]; cbn [profile main preload renderer defineConfig alias_map
                     Vite.resolve Vite.alias declared_alias];
    apply object_literal_distinct;
    [apply main_alias_NoDup | apply preload_alias_NoDup
     | apply renderer_alias_NoDup].
Qed.

(** X11. Prefixes written for more than one profile: every alias of
    preload is an alias of main with the same path; main and renderer have
    exactly [@types], [@shared] and [@logger] in common; they give
    [@shared] and [@types] the same path, whereas [@logger] is resolved
    from [src/main/services/LoggerService] in main and from
    [src/renderer/src/services/LoggerService] in the renderer. *)
Theorem aliases_in_common
    (resolve : list string → string) (env : Env) (pkg : PackageJson)
    (dirname : string) (deps : JSObject string) :
  dependencies pkg = Some deps →
  ∃ c, default_export resolve env pkg dirname = Normal c
       ∧ (∀ entry, entry ∈ alias_map (profile Bridge c) →
                   entry ∈ alias_map (profile Host c))
       ∧ (∀ prefix, prefix ∈ Object_keys (alias_map (profile Host c))
                    ∧ prefix ∈ Object_keys (alias_map (profile UI c))
                    ↔ prefix ∈ ["@types"; "@shared"; "@logger"])
       ∧ (∀ prefix path, prefix = "@shared" ∨ prefix = "@types" →
            (prefix, path) ∈ alias_map (profile Host c)
            ↔ (prefix, path) ∈ alias_map (profile UI c))
       ∧ (∀ path, ("@logger", path) ∈ alias_map (profile Host c)
                  ↔ path = resolve ["src/main/services/LoggerService"])
       ∧ (∀ path, ("@logger", path) ∈ alias_map (profile UI c)
                  ↔ path = resolve ["src/renderer/src/services/LoggerService"]).
Proof.
  intros Hdeps.
  destruct (alias_maps_as_declared resolve env pkg dirname deps Hdeps)
    as (c & Hc & Halias).
  exists c. split; [exact Hc |]. rewrite !Halias.
  cbn [declared_alias]. unfold Object_keys.
  rewrite main_alias_keys, renderer_alias_keys.
  unfold main_alias, preload_alias, renderer_alias.
  split; [| split; [| split; [| split]]].
  - intros entry. rewrite !elem_of_cons, !elem_of_nil. tauto.
  - intros prefix. rewrite !elem_of_cons, !elem_of_nil. split.
    + intros [Hmain Hui].
      repeat destruct Hmain as [-> | Hmain]; try destruct Hmain; auto 6;
        repeat destruct Hui as [Heq | Hui]; try discriminate Heq;
        destruct Hui.
    + intros Hin. repeat destruct Hin as [-> | Hin]; try destruct Hin;
        split; auto 10.
  - intros prefix path [-> | ->]; rewrite !elem_of_cons, !elem_of_nil;
      split; intros Hin;
      repeat destruct Hin as [Heq | Hin]; try discriminate Heq;
      try destruct Hin; injection Heq as ->; auto 8.
  - intros path. rewrite !elem_of_cons, !elem_of_nil. split.
    + intros Hin. repeat destruct Hin as [Heq | Hin]; try discriminate Heq;
        try destruct Hin. injection Heq as ->. reflexivity.
    + intros ->. auto 8.
  - intros path. rewrite !elem_of_cons, !elem_of_nil. split.
    + intros Hin. repeat destruct Hin as [Heq | Hin]; try discriminate Heq;
        try destruct Hin. injection Heq as ->. reflexivity.
    + intros ->. auto 8.
Qed.

Lemma aliases_in_common_witness :
  dependencies pkg_axios_zod = Some [("axios", "^1.7.3"); ("zod", "^3.25.76")]
  ∧ ∃ c, default_export (Path.resolve "/app") env_development pkg_axios_zod
           "/app" = Normal c
       ∧ (∀ entry, entry ∈ alias_map (profile Bridge c) →
                   entry ∈ alias_map (profile Host c))
       ∧ (∀ prefix, prefix ∈ Object_keys (alias_map (profile Host c))
                    ∧ prefix ∈ Object_keys (alias_map (profile UI c))
                    ↔ prefix ∈ ["@types"; "@shared"; "@logger"])
       ∧ (∀ prefix path, prefix = "@shared" ∨ prefix = "@types" →
            (prefix, path) ∈ alias_map (profile Host c)
            ↔ (prefix, path) ∈ alias_map (profile UI c))
       ∧ (∀ path, ("@logger", path) ∈ alias_map (profile Host c)
                  ↔ path = Path.resolve "/app"
                             ["src/main/services/LoggerService"])
       ∧ (∀ path, ("@logger", path) ∈ alias_map (profile UI c)
                  ↔ path = Path.resolve "/app"
                             ["src/renderer/src/services/LoggerService"]).
Proof.
  split; [reflexivity |].
  apply (aliases_in_common (Path.resolve "/app") env_development
           pkg_axios_zod "/app" [("axios", "^1.7.3"); ("zod", "^3.25.76")]).
  reflexivity.
Defined.

(** On POSIX the two [@logger] paths are two places. *)
Example logger_alias_differs_posix :
  Path.resolve "/app" ["src/main/services/LoggerService"]
  ≠ Path.resolve "/app" ["src/renderer/src/services/LoggerService"].
Proof. vm_compute. discriminate. Qed.

(** X15. In every profile the alias map has pairwise distinct prefixes and
    is exactly the literal written for that target, entry for entry and in
    the order written: nothing comes from another target's literal and no
    entry is overwritten. *)
Theorem alias_maps_distinct_and_declared
    (resolve : list string → string) (env : Env) (pkg : PackageJson)
    (dirname : string) (deps : JSObject string) :
  dependencies pkg = Some deps →
  ∃ c, default_export resolve env pkg dirname = Normal c
       ∧ ∀ t, NoDup (Object_keys (alias_map (profile t c)))
              ∧ alias_map (profile t c) = declared_alias resolve t.
Proof.
  intros Hdeps.
  destruct (alias_maps_as_declared resolve env pkg dirname deps Hdeps)
    as (c & Hc & Halias).
  exists c. split; [exact Hc |].
  intros t. split; [| apply Halias].
  rewrite Halias. apply declared_alias_NoDup.
Qed.

Lemma alias_maps_distinct_and_declared_witness :
  dependencies pkg_axios_zod = Some [("axios", "^1.7.3"); ("zod", "^3.25.76")]
  ∧ ∃ c, default_export (Path.resolve "/app") env_development pkg_axios_zod
           "/app" = Normal c
       ∧ ∀ t, NoDup (Object_keys (alias_map (profile t c)))
              ∧ alias_map (profile t c)
                = declared_alias (Path.resolve "/app") t.
Proof.
  split; [reflexivity |].
  apply (alias_maps_distinct_and_declared (Path.resolve "/app")
           env_development pkg_axios_zod "/app"
           [("axios", "^1.7.3"); ("zod", "^3.25.76")]).
  reflexivity.
Defined.

(** ** Working directory and module directory, on POSIX *)

Lemma segments_nonempty (s : string) : Path.segments s ≠ [].
Proof.
  destruct s as [| c s]; simpl; [discriminate |].
  destruct (Ascii.eqb c "/"); [discriminate |].
  destruct (Path.segments s); discriminate.
Qed.

(** Splitting at the separators and joining again gives the path back. *)
Lemma concat_segments (s : string) : String.concat "/" (Path.segments s) = s.
Proof.
  induction s as [| c s IH]; [reflexivity |]. simpl Path.segments.
  pose proof (segments_nonempty s) as Hne.
  destruct (Ascii.eqb c "/") eqn:Hc.
  - apply Ascii.eqb_eq in Hc. subst c.
    destruct (Path.segments s) as [| seg rest]; [contradiction |].
    change (String.concat "/" ("" :: seg :: rest))
      with ("/" +:+ String.concat "/" (seg :: rest)).
    rewrite IH. reflexivity.
  - destruct (Path.segments s) as [| seg rest]; [contradiction |].
    rewrite <- IH. destruct rest; reflexivity.
Qed.

(** The loop of [resolve] stops at the first absolute argument from the
    right: what stands before it is never read. *)
Lemma join_from_right_stops (later : list string) (d : string)
    (earlier : list string) (acc : string) :
  Path.is_absolute d = true →
  Path.join_from_right (later ++ d :: earlier) acc
  = Path.join_from_right (later ++ [d]) acc.
Proof.
  intros Habs. revert acc.
  induction later as [| p later IH]; intros acc; simpl.
  - destruct (decide (d = "")) as [-> | _]; [discriminate Habs |].
    rewrite Habs. reflexivity.
  - destruct (decide (p = "")); [apply IH |].
    destruct (Path.is_absolute p); [reflexivity | apply IH].
Qed.

Lemma resolve_absolute_first (cwd1 cwd2 d : string) (paths : list string) :
  Path.is_absolute d = true →
  Path.resolve cwd1 (d :: paths) = Path.resolve cwd2 (d :: paths).
Proof.
  intros Habs. unfold Path.resolve.
  rewrite reverse_cons, <- !app_assoc. simpl app.
  rewrite (join_from_right_stops _ d [cwd1]) by exact Habs.
  rewrite (join_from_right_stops _ d [cwd2]) by exact Habs.
  reflexivity.
Qed.

Lemma resolve_from_cwd (cwd d : string) (paths : list string) :
  Path.is_absolute d = true →
  Path.resolve d paths = Path.resolve cwd (d :: paths).
Proof.
  intros Habs. unfold Path.resolve.
  rewrite reverse_cons, <- !app_assoc. simpl app.
  rewrite (join_from_right_stops _ d [cwd]) by exact Habs.
  reflexivity.
Qed.

(** A relative path of plain names resolves to the working directory
    followed by these names. *)
Lemma resolve_relative_under_cwd (dir : list string) (r : string) :
  Forall (λ s, plain_segment s = true) dir →
  forallb plain_segment (Path.segments r) = true →
  ∃ rel, rel ≠ []
         ∧ Forall (λ s, plain_segment s = true) rel
         ∧ Path.resolve (posix_path dir) [r] = posix_path (dir ++ rel).
Proof.
  intros Hdir Hrel. exists (Path.segments r).
  assert (Hplain : Forall (λ s, plain_segment s = true) (Path.segments r)).
  { apply Forall_forall. intros s Hs%list_elem_of_In.
    apply (proj1 (forallb_forall _ _) Hrel s Hs). }
  split; [apply segments_nonempty |]. split; [exact Hplain |].
  rewrite (resolve_from_cwd "/" (posix_path dir)) by reflexivity.
  rewrite <- (concat_segments r) at 1.
  apply resolve_under_absolute;
    [exact Hdir | exact Hplain | apply segments_nonempty].
Qed.

(** X12. On POSIX, the aliases follow the working directory, not the
    module: with the process started in [/d1/.../dn], every alias path of
    every profile is that directory followed by one or more plain names,
    whatever [__dirname] is. *)
Theorem alias_paths_under_cwd_posix
    (dir : list string) (env : Env) (pkg : PackageJson) (dirname : string)
    (deps : JSObject string) :
  Forall (λ s, plain_segment s = true) dir →
  dependencies pkg = Some deps →
  ∃ c, default_export (Path.resolve (posix_path dir)) env pkg dirname
       = Normal c
       ∧ ∀ t prefix path, (prefix, path) ∈ alias_map (profile t c) →
           ∃ rel, rel ≠ []
                  ∧ Forall (λ s, plain_segment s = true) rel
                  ∧ path = posix_path (dir ++ rel).
Proof.
  intros Hdir Hdeps.
  destruct (alias_maps_as_declared (Path.resolve (posix_path dir)) env pkg
              dirname deps Hdeps) as (c & Hc & Halias).
  exists c. split; [exact Hc |].
  intros t prefix path. rewrite Halias.
  destruct t; unfold declared_alias, main_alias, preload_alias, renderer_alias;
    rewrite !elem_of_cons, elem_of_nil; intros Hin;
    repeat destruct Hin as [Heq | Hin];
    try (injection Heq as -> ->;
         apply resolve_relative_under_cwd; [exact Hdir | reflexivity]);
    destruct Hin.
Qed.

Lemma alias_paths_under_cwd_posix_witness :
  Forall (λ s, plain_segment s = true) ["opt"; "cherry-studio"]
  ∧ dependencies pkg_axios_zod
    = Some [("axios", "^1.7.3"); ("zod", "^3.25.76")]
  ∧ ∃ c, default_export (Path.resolve (posix_path ["opt"; "cherry-studio"]))
           env_development pkg_axios_zod "/srv/build" = Normal c
       ∧ ∀ t prefix path, (prefix, path) ∈ alias_map (profile t c) →
           ∃ rel, rel ≠ []
                  ∧ Forall (λ s, plain_segment s = true) rel
                  ∧ path = posix_path (["opt"; "cherry-studio"] ++ rel).
Proof.
  split; [repeat constructor |]. split; [reflexivity |].
  apply (alias_paths_under_cwd_posix ["opt"; "cherry-studio"] env_development
           pkg_axios_zod "/srv/build"
           [("axios", "^1.7.3"); ("zod", "^3.25.76")]);
    [repeat constructor | reflexivity].
Defined.

Example alias_follows_cwd :
  main_alias (Path.resolve "/opt/cherry-studio")
  = [("@main", "/opt/cherry-studio/src/main");
     ("@types", "/opt/cherry-studio/src/renderer/src/types");
     ("@shared", "/opt/cherry-studio/packages/shared");
     ("@logger", "/opt/cherry-studio/src/main/services/LoggerService");
     ("@mcp-trace/trace-core",
      "/opt/cherry-studio/packages/mcp-trace/trace-core");
     ("@mcp-trace/trace-node",
      "/opt/cherry-studio/packages/mcp-trace/trace-node")].
Proof. vm_compute. reflexivity. Qed.

(** X13. On POSIX, with an absolute [__dirname] the renderer's entries do
    not depend on the working directory: two runs started in different
    directories get the same [input]. *)
Theorem renderer_entries_ignore_cwd_posix
    (cwd1 cwd2 : string) (env1 env2 : Env) (pkg : PackageJson)
    (dirname : string) (deps : JSObject string) :
  Path.is_absolute dirname = true →
  dependencies pkg = Some deps →
  ∃ c1 c2, default_export (Path.resolve cwd1) env1 pkg dirname = Normal c1
       ∧ default_export (Path.resolve cwd2) env2 pkg dirname = Normal c2
       ∧ entry_set (profile UI c1) = entry_set (profile UI c2).
Proof.
  intros Habs Hdeps. unfold default_export, compose. rewrite Hdeps.
  eexists. eexists. split; [reflexivity |]. split; [reflexivity |].
  cbn. unfold renderer_input.
  rewrite !(resolve_absolute_first cwd1 cwd2 dirname) by exact Habs.
  reflexivity.
Qed.

Lemma renderer_entries_ignore_cwd_posix_witness :
  Path.is_absolute "/opt/cherry-studio" = true
  ∧ dependencies pkg_axios_zod
    = Some [("axios", "^1.7.3"); ("zod", "^3.25.76")]
  ∧ ∃ c1 c2, default_export (Path.resolve "/tmp") env_development
               pkg_axios_zod "/opt/cherry-studio" = Normal c1
       ∧ default_export (Path.resolve "/home/user") env_production
           pkg_axios_zod "/opt/cherry-studio" = Normal c2
       ∧ entry_set (profile UI c1) = entry_set (profile UI c2).
Proof.
  split; [reflexivity |]. split; [reflexivity |].
  apply (renderer_entries_ignore_cwd_posix "/tmp" "/home/user"
           env_development env_production pkg_axios_zod "/opt/cherry-studio"
           [("axios", "^1.7.3"); ("zod", "^3.25.76")]);
    reflexivity.
Defined.

Lemma renderer_input_under_source_root_posix_witness :
  Forall (λ s, plain_segment s = true) ["opt"; "cherry-studio"]
  ∧ ("miniWindow", "/opt/cherry-studio/src/renderer/miniWindow.html")
    ∈ renderer_input (Path.resolve "/tmp")
        ("/" +:+ String.concat "/" ["opt"; "cherry-studio"])
  ∧ "/opt/cherry-studio/src/renderer/miniWindow.html"
    = Path.resolve "/tmp"
        ["/" +:+ String.concat "/" ["opt"; "cherry-studio"]; "src/renderer"]
      +:+ "/" +:+ "miniWindow" +:+ ".html".
Proof.
  assert (Hin : ("miniWindow", "/opt/cherry-studio/src/renderer/miniWindow.html")
                ∈ renderer_input (Path.resolve "/tmp")
                    ("/" +:+ String.concat "/" ["opt"; "cherry-studio"])).
  { apply elem_of_cons. right. apply elem_of_cons. left. vm_compute.
    reflexivity. }
  split; [repeat constructor |]. split; [exact Hin |].
  apply (renderer_input_under_source_root_posix "/tmp"
           ["opt"; "cherry-studio"] "miniWindow"
           "/opt/cherry-studio/src/renderer/miniWindow.html");
    [repeat constructor | exact Hin].
Defined.
